(** * A shallow embedding of the Wikipedia gateway server (server.py)

    The program is a set of six tool operations that query Wikipedia over
    HTTP and render the decoded JSON payload as text.  The embedding keeps
    the three layers of the source:

    - the gateway client [make_wikipedia_request], which turns every
      failure of the HTTP exchange into [None];
    - the formatters [format_search_result], [format_article_summary] and
      [format_article_sections];
    - the six tool operations.

    Python values are dynamically typed, so a payload is an arbitrary JSON
    tree and every primitive the source applies to it (membership,
    subscript, [.get], [.replace], iteration, slicing, truthiness) is
    modelled with the exception it raises on a value of the wrong type. *)

From Stdlib Require Import String Ascii List ZArith Bool Lia DecimalString
  DecimalNat.
Import ListNotations.

Local Open Scope list_scope.
Local Open Scope string_scope.

(** ** Text *)

Module Text.

(** Characters that cannot be written inside a literal. *)
Definition nl : string := String "010"%char EmptyString.
Definition dquote : string := String "034"%char EmptyString.

(** [sep.join(items)] *)
Definition join (sep : string) (items : list string) : string :=
  String.concat sep items.

(** [pat in s] for two strings: [pat] occurs somewhere in [s]. *)
Fixpoint contains (pat s : string) : bool :=
  match s with
  | EmptyString => String.prefix pat EmptyString
  | String _ s' => String.prefix pat s || contains pat s'
  end.

(** Drop the first [n] characters. *)
Fixpoint drop (n : nat) (s : string) : string :=
  match n, s with
  | O, _ => s
  | S _, EmptyString => EmptyString
  | S k, String _ s' => drop k s'
  end.

(** The scan of [str.replace] for a non-empty [old]: left to right, a
    match is replaced by [new] and the scan resumes after it ([skip]
    counts the characters of the match still to be passed over). *)
Fixpoint replace_scan (old new : string) (skip : nat) (s : string) : string :=
  match s with
  | EmptyString => EmptyString
  | String c s' =>
      match skip with
      | S k => replace_scan old new k s'
      | O =>
          if String.prefix old s
          then new ++ replace_scan old new (String.length old - 1) s'
          else String c (replace_scan old new 0 s')
      end
  end.

(** With an empty [old], Python inserts [new] before every character and
    at the end. *)
Fixpoint intersperse (new s : string) : string :=
  match s with
  | EmptyString => new
  | String c s' => new ++ String c (intersperse new s')
  end.

(** [s.replace(old, new)] *)
Definition replace (old new s : string) : string :=
  match old with
  | EmptyString => intersperse new s
  | String _ _ => replace_scan old new 0 s
  end.

(** [str(n)] for a length. *)
Definition of_nat (n : nat) : string :=
  NilZero.string_of_uint (Nat.to_uint n).

(** [str(z)] for an integer. *)
Definition of_Z (z : Z) : string :=
  NilZero.string_of_int (Z.to_int z).

(** Two lower-case hexadecimal digits of a character code. *)
Definition hex_digit (n : nat) : ascii :=
  match String.get n "0123456789abcdef" with
  | Some c => c
  | None => "0"%char
  end.

Definition hex2 (c : ascii) : string :=
  let n := nat_of_ascii c in
  String (hex_digit (n / 16)) (String (hex_digit (n mod 16)) EmptyString).

End Text.

(** ** Python values decoded from JSON *)

(** A float is known to the program only through its truth value and its
    rendering; both are carried by the value. *)
Record pyfloat : Type := PyFloat {
  float_is_zero : bool;
  float_text : string
}.

(** A decoded payload.  A mapping keeps the order of its keys, as a Python
    dict does: [next(iter(d.values()))] is the value of the first key.
    [JNull] is Python's [None], which is also what the gateway client
    returns when the request failed. *)
#[warnings="-register-all"]
Inductive json : Type :=
| JNull
| JBool (b : bool)
| JInt (z : Z)
| JFloat (f : pyfloat)
| JStr (s : string)
| JArr (items : list json)
| JObj (fields : list (string * json)).

(** The exceptions the program can meet. *)
Inductive exn : Type :=
| AttributeError
| TypeError
| KeyError
| StopIteration
| RuntimeError
| TimeoutException
| ConnectError
| HTTPStatusError
| JSONDecodeError.

(** A Python computation either returns a value or raises. *)
Inductive result (A : Type) : Type :=
| Ok (a : A)
| Raise (e : exn).

Arguments Ok {A} a.
Arguments Raise {A} e.

Definition bind {A B : Type} (m : result A) (k : A -> result B) : result B :=
  match m with
  | Ok a => k a
  | Raise e => Raise e
  end.

Notation "x <- m ;; k" := (bind m (fun x => k))
  (at level 61, m at next level, right associativity).

(** A loop body applied to each item in order; the first exception ends
    the loop. *)
Fixpoint for_each {A B : Type} (f : A -> result B) (items : list A)
  : result (list B) :=
  match items with
  | [] => Ok []
  | x :: rest =>
      y <- f x ;;
      ys <- for_each f rest ;;
      Ok (y :: ys)
  end.

(** [a or b], where [b] is evaluated only when [a] is false. *)
Definition or_else (a b : result bool) : result bool :=
  x <- a ;; if x then Ok true else b.

Module Py.

(** Lookup in a mapping: the first binding of the key. *)
Fixpoint dict_get (k : string) (fields : list (string * json)) : option json :=
  match fields with
  | [] => None
  | (k', v) :: rest => if String.eqb k k' then Some v else dict_get k rest
  end.

Definition dict_has (k : string) (fields : list (string * json)) : bool :=
  match dict_get k fields with
  | Some _ => true
  | None => false
  end.

(** [bool(v)] *)
Definition truthy (v : json) : bool :=
  match v with
  | JNull => false
  | JBool b => b
  | JInt z => negb (Z.eqb z 0)
  | JFloat f => negb (float_is_zero f)
  | JStr s => negb (String.eqb s "")
  | JArr items => match items with [] => false | _ => true end
  | JObj fields => match fields with [] => false | _ => true end
  end.

(** [v == k] for a string [k]: only a string equals a string. *)
Definition eq_str (k : string) (v : json) : bool :=
  match v with
  | JStr s => String.eqb k s
  | _ => false
  end.

(** [k in v] for a string [k]. *)
Definition contains (k : string) (v : json) : result bool :=
  match v with
  | JObj fields => Ok (dict_has k fields)
  | JArr items => Ok (existsb (eq_str k) items)
  | JStr s => Ok (Text.contains k s)
  | _ => Raise TypeError
  end.

(** [k not in v] *)
Definition not_in (k : string) (v : json) : result bool :=
  b <- contains k v ;; Ok (negb b).

(** [v[k]] for a string [k]. *)
Definition getitem (v : json) (k : string) : result json :=
  match v with
  | JObj fields =>
      match dict_get k fields with
      | Some x => Ok x
      | None => Raise KeyError
      end
  | _ => Raise TypeError
  end.

(** [v.get(k, default)] *)
Definition get (v : json) (k : string) (default : json) : result json :=
  match v with
  | JObj fields =>
      match dict_get k fields with
      | Some x => Ok x
      | None => Ok default
      end
  | _ => Raise AttributeError
  end.

(** [v.replace(old, new)] *)
Definition replace (v : json) (old new : string) : result string :=
  match v with
  | JStr s => Ok (Text.replace old new s)
  | _ => Raise AttributeError
  end.

(** [v.values()] *)
Definition values (v : json) : result (list json) :=
  match v with
  | JObj fields => Ok (map snd fields)
  | _ => Raise AttributeError
  end.

(** [next(iter(items))] *)
Definition next_iter (items : list json) : result json :=
  match items with
  | x :: _ => Ok x
  | [] => Raise StopIteration
  end.

(** The items a [for] loop visits: the elements of a list, the keys of a
    mapping, the characters of a string. *)
Fixpoint chars (s : string) : list json :=
  match s with
  | EmptyString => []
  | String c s' => JStr (String c EmptyString) :: chars s'
  end.

Definition iter (v : json) : result (list json) :=
  match v with
  | JArr items => Ok items
  | JObj fields => Ok (map (fun kv => JStr (fst kv)) fields)
  | JStr s => Ok (chars s)
  | _ => Raise TypeError
  end.

(** [items[:n]] on a sequence: a negative [n] counts from the end. *)
Definition slice_upto {A : Type} (items : list A) (n : Z) : list A :=
  if (0 <=? n)%Z
  then firstn (Z.to_nat n) items
  else firstn (List.length items - Z.to_nat (- n)) items.

(** [v[:n]]; a mapping does not take a slice as a key, a scalar is not
    subscriptable. *)
Definition slice (v : json) (n : Z) : result json :=
  match v with
  | JArr items => Ok (JArr (slice_upto items n))
  | JStr s =>
      Ok (JStr (string_of_list_ascii
                  (slice_upto (list_ascii_of_string s) n)))
  | _ => Raise TypeError
  end.

(** [repr(s)] of a string: quoted, with Python's escapes.  A string is
    held as its UTF-8 bytes.  The escapes are exact for U+0000 to U+00FF:
    the control characters, the no-break space U+00A0 and the soft hyphen
    U+00AD come out as [\xNN].  A character beyond U+00FF is kept as it
    is, also where Python would write [\uNNNN] for one it does not hold
    printable. *)
Definition escape_char (quote c : ascii) : string :=
  if Ascii.eqb c "\"%char then "\\"
  else if Ascii.eqb c quote then String "\"%char (String c EmptyString)
  else if Ascii.eqb c "010"%char then "\n"
  else if Ascii.eqb c "013"%char then "\r"
  else if Ascii.eqb c "009"%char then "\t"
  else if (nat_of_ascii c <? 32)%nat || Ascii.eqb c "127"%char
       then "\x" ++ Text.hex2 c
  else String c EmptyString.

(** The second byte of a two-byte sequence that starts with 0xC2 and
    encodes a character Python does not hold printable: U+0080 to U+00A0
    and U+00AD. *)
Definition latin1_unprintable (c : ascii) : bool :=
  let n := nat_of_ascii c in
  ((128 <=? n)%nat && (n <=? 160)%nat) || (n =? 173)%nat.

Fixpoint escape (quote : ascii) (s : string) : string :=
  match s with
  | EmptyString => EmptyString
  | String c s' =>
      match s' with
      | String c2 rest =>
          if Ascii.eqb c "194"%char && latin1_unprintable c2
          then "\x" ++ Text.hex2 c2 ++ escape quote rest
          else escape_char quote c ++ escape quote s'
      | EmptyString => escape_char quote c ++ escape quote s'
      end
  end.

Definition repr_str (s : string) : string :=
  let quote :=
    if Text.contains "'" s && negb (Text.contains Text.dquote s)
    then "034"%char else "'"%char in
  String quote (escape quote s ++ String quote EmptyString).

(** [repr(v)] *)
Fixpoint repr (v : json) : string :=
  match v with
  | JNull => "None"
  | JBool true => "True"
  | JBool false => "False"
  | JInt z => Text.of_Z z
  | JFloat f => float_text f
  | JStr s => repr_str s
  | JArr items => "[" ++ Text.join ", " (map repr items) ++ "]"
  | JObj fields =>
      "{" ++ Text.join ", "
               (map (fun kv => repr_str (fst kv) ++ ": " ++ repr (snd kv))
                    fields) ++ "}"
  end.

(** [str(v)], which is what an f-string field [{v}] renders. *)
Definition str (v : json) : string :=
  match v with
  | JStr s => s
  | _ => repr v
  end.

End Py.

(** ** The network and the asynchronous operations *)

(** What [client.get] is called with. *)
Record request : Type := Request {
  req_url : string;
  req_headers : list (string * string);
  req_params : option (list (string * json));
  req_timeout : Z
}.

(** What the HTTP exchange does: [client.get] raises (time-out, transport
    error), or a response arrives with a status code and a body that
    decodes as JSON or does not. *)
Inductive http_reply : Type :=
| Fails (e : exn)
| Responds (status : Z) (body : option json).

Definition network : Type := request -> http_reply.

(** An [async def]: it runs against the network, appends the requests it
    sends to the log, and returns or raises. *)
Definition Aio (A : Type) : Type :=
  network -> list request -> result A * list request.

Definition aret {A : Type} (a : A) : Aio A :=
  fun _ log => (Ok a, log).

Definition abind {A B : Type} (m : Aio A) (k : A -> Aio B) : Aio B :=
  fun net log =>
    match m net log with
    | (Ok a, log') => k a net log'
    | (Raise e, log') => (Raise e, log')
    end.

Notation "x <~ m ;; k" := (abind m (fun x => k))
  (at level 61, m at next level, right associativity).

(** Synchronous code inside an [async def]. *)
Definition lift {A : Type} (r : result A) : Aio A :=
  fun _ log => (r, log).

(** [await client.get(...)] *)
Definition client_get (req : request) : Aio (Z * option json) :=
  fun net log =>
    (match net req with
     | Fails e => Raise e
     | Responds status body => Ok (status, body)
     end, (log ++ [req])%list).

(** A [StopIteration] that leaves the body of a coroutine reaches the
    caller as a [RuntimeError]. *)
Definition coroutine {A : Type} (body : Aio A) : Aio A :=
  fun net log =>
    match body net log with
    | (Raise StopIteration, log') => (Raise RuntimeError, log')
    | r => r
    end.

(** [try: body except Exception: return fallback] *)
Definition try_except {A : Type} (body : Aio A) (fallback : A) : Aio A :=
  fun net log =>
    match body net log with
    | (Ok a, log') => (Ok a, log')
    | (Raise _, log') => (Ok fallback, log')
    end.

(** The result and the requests sent, from an empty log. *)
Definition run {A : Type} (op : Aio A) (net : network) : result A :=
  fst (op net []).

Definition sent {A : Type} (op : Aio A) (net : network) : list request :=
  snd (op net []).

(** ** server.py *)

Definition WIKIPEDIA_API_BASE : string := "https://en.wikipedia.org/api/rest_v1".
Definition WIKIPEDIA_SEARCH_API : string := "https://en.wikipedia.org/w/api.php".
Definition USER_AGENT : string := "wikipedia-mcp/1.0".

(** [response.raise_for_status()]: httpx raises unless the status is 2xx. *)
Definition raise_for_status (status : Z) : result unit :=
  if ((200 <=? status) && (status <=? 299))%Z
  then Ok tt else Raise HTTPStatusError.

(** [response.json()] *)
Definition response_json (body : option json) : result json :=
  match body with
  | Some v => Ok v
  | None => Raise JSONDecodeError
  end.

Definition gateway_request (url : string)
    (params : option (list (string * json))) : request :=
  {| req_url := url;
     req_headers := [("User-Agent", USER_AGENT); ("Accept", "application/json")];
     req_params := params;
     req_timeout := 30 |}.

Definition make_wikipedia_request (url : string)
    (params : option (list (string * json))) : Aio json :=
  coroutine
    (try_except
       (response <~ client_get (gateway_request url params) ;;
        lift (_ <- raise_for_status (fst response) ;;
              response_json (snd response)))
       JNull).

Definition searchmatch_open : string :=
  "<span class=" ++ Text.dquote ++ "searchmatch" ++ Text.dquote ++ ">".

Definition searchmatch_close : string := "</span>".

Definition format_search_result (page : json) : result string :=
  title <- Py.get page "title" (JStr "Unknown") ;;
  raw <- Py.get page "snippet" (JStr "No description available") ;;
  opened <- Py.replace raw searchmatch_open "" ;;
  let snippet := Text.replace searchmatch_close "" opened in
  slug <- Py.replace title " " "_" ;;
  Ok ("Title: " ++ Py.str title ++ Text.nl ++
      "Description: " ++ snippet ++ Text.nl ++
      "URL: https://en.wikipedia.org/wiki/" ++ slug).

Definition format_article_summary (data : json) : result string :=
  title <- Py.get data "title" (JStr "Unknown") ;;
  extract <- Py.get data "extract" (JStr "No summary available") ;;
  urls <- Py.get data "content_urls" (JObj []) ;;
  desktop <- Py.get urls "desktop" (JObj []) ;;
  content_urls <- Py.get desktop "page" (JStr "") ;;
  Ok ("Title: " ++ Py.str title ++ Text.nl ++
      "Summary: " ++ Py.str extract ++ Text.nl ++
      "URL: " ++ Py.str content_urls).

Definition format_article_sections (sections : json) : result string :=
  if negb (Py.truthy sections) then Ok "No sections found."
  else
    first10 <- Py.slice sections 10 ;;
    items <- Py.iter first10 ;;
    formatted_sections <-
      for_each (fun section =>
                  line <- Py.get section "line" (JStr "Unknown Section") ;;
                  Ok ("- " ++ Py.str line)) items ;;
    Ok (Text.join Text.nl formatted_sections).

Definition search_params (query : string) (limit : Z) : list (string * json) :=
  [("action", JStr "query"); ("format", JStr "json"); ("list", JStr "search");
   ("srsearch", JStr query); ("srlimit", JInt (Z.min limit 20))].

Definition search_wikipedia (query : string) (limit : Z) : Aio string :=
  coroutine
    (data <~ make_wikipedia_request WIKIPEDIA_SEARCH_API
               (Some (search_params query limit)) ;;
     lift
       (unusable <- or_else (Ok (negb (Py.truthy data)))
                      (or_else (Py.not_in "query" data)
                         (q <- Py.getitem data "query" ;; Py.not_in "search" q)) ;;
        if unusable then Ok "Unable to search Wikipedia or no results found."
        else
          q <- Py.getitem data "query" ;;
          search_results <- Py.getitem q "search" ;;
          if negb (Py.truthy search_results)
          then Ok ("No Wikipedia articles found for query: '" ++ query ++ "'")
          else
            items <- Py.iter search_results ;;
            results <- for_each format_search_result items ;;
            Ok ("Found " ++ Text.of_nat (List.length results) ++
                " Wikipedia articles:" ++ Text.nl ++ Text.nl ++
                Text.join (Text.nl ++ "---" ++ Text.nl) results))).

Definition summary_url (title : string) : string :=
  WIKIPEDIA_API_BASE ++ "/page/summary/" ++ Text.replace " " "_" title.

Definition sections_url (title : string) : string :=
  WIKIPEDIA_API_BASE ++ "/page/sections/" ++ Text.replace " " "_" title.

Definition get_wikipedia_article (title : string) : Aio string :=
  coroutine
    (summary_data <~ make_wikipedia_request (summary_url title) None ;;
     if negb (Py.truthy summary_data)
     then aret ("Unable to fetch Wikipedia article '" ++ title ++
                "'. Article may not exist.")
     else
       sections_data <~ make_wikipedia_request (sections_url title) None ;;
       lift
         (article_info <- format_article_summary summary_data ;;
          has_sections <-
            (if Py.truthy sections_data
             then s <- Py.get sections_data "sections" JNull ;; Ok (Py.truthy s)
             else Ok false) ;;
          if has_sections
          then
            sections <- Py.getitem sections_data "sections" ;;
            sections_list <- format_article_sections sections ;;
            Ok (article_info ++ Text.nl ++ Text.nl ++ "Sections:" ++ Text.nl ++
                sections_list)
          else Ok article_info)).

Definition get_wikipedia_summary (title : string) : Aio string :=
  coroutine
    (data <~ make_wikipedia_request (summary_url title) None ;;
     if negb (Py.truthy data)
     then aret ("Unable to fetch summary for Wikipedia article '" ++ title ++ "'.")
     else lift (format_article_summary data)).

Definition get_wikipedia_sections (title : string) : Aio string :=
  coroutine
    (data <~ make_wikipedia_request (sections_url title) None ;;
     lift
       (unusable <- or_else (Ok (negb (Py.truthy data)))
                      (Py.not_in "sections" data) ;;
        if unusable
        then Ok ("Unable to fetch sections for Wikipedia article '" ++ title ++ "'.")
        else
          sections <- Py.getitem data "sections" ;;
          formatted_sections <- format_article_sections sections ;;
          Ok ("Sections for '" ++ title ++ "':" ++ Text.nl ++ formatted_sections))).

Definition links_params (title : string) (limit : Z) : list (string * json) :=
  [("action", JStr "query"); ("format", JStr "json"); ("titles", JStr title);
   ("prop", JStr "links"); ("pllimit", JInt (Z.min limit 50))].

Definition get_wikipedia_links (title : string) (limit : Z) : Aio string :=
  coroutine
    (data <~ make_wikipedia_request WIKIPEDIA_SEARCH_API
               (Some (links_params title limit)) ;;
     lift
       (unusable <- or_else (Ok (negb (Py.truthy data)))
                      (or_else (Py.not_in "query" data)
                         (q <- Py.getitem data "query" ;; Py.not_in "pages" q)) ;;
        if unusable
        then Ok ("Unable to fetch links for Wikipedia article '" ++ title ++ "'.")
        else
          q <- Py.getitem data "query" ;;
          pages <- Py.getitem q "pages" ;;
          page_values <- Py.values pages ;;
          page <- Py.next_iter page_values ;;
          no_links <- Py.not_in "links" page ;;
          if no_links
          then Ok ("No links found in Wikipedia article '" ++ title ++ "'.")
          else
            page_links <- Py.getitem page "links" ;;
            items <- Py.iter page_links ;;
            links <- for_each (fun link => Py.getitem link "title") items ;;
            Ok ("Links in '" ++ title ++ "' (showing " ++
                Text.of_nat (List.length links) ++ " links):" ++ Text.nl ++
                Text.join Text.nl (map (fun link => "- " ++ Py.str link) links)))).

Definition categories_params (title : string) : list (string * json) :=
  [("action", JStr "query"); ("format", JStr "json"); ("titles", JStr title);
   ("prop", JStr "categories"); ("cllimit", JInt 20)].

Definition get_related_topics (title : string) (limit : Z) : Aio string :=
  coroutine
    (data <~ make_wikipedia_request WIKIPEDIA_SEARCH_API
               (Some (categories_params title)) ;;
     lift
       (unusable <- or_else (Ok (negb (Py.truthy data)))
                      (or_else (Py.not_in "query" data)
                         (q <- Py.getitem data "query" ;; Py.not_in "pages" q)) ;;
        if unusable
        then Ok ("Unable to fetch related topics for Wikipedia article '" ++
                 title ++ "'.")
        else
          q <- Py.getitem data "query" ;;
          pages <- Py.getitem q "pages" ;;
          page_values <- Py.values pages ;;
          page <- Py.next_iter page_values ;;
          no_categories <- Py.not_in "categories" page ;;
          if no_categories
          then Ok ("No categories found for Wikipedia article '" ++ title ++ "'.")
          else
            page_categories <- Py.getitem page "categories" ;;
            items <- Py.iter page_categories ;;
            categories <-
              for_each (fun cat =>
                          t <- Py.getitem cat "title" ;;
                          Py.replace t "Category:" "") items ;;
            let related_topics := Py.slice_upto categories limit in
            Ok ("Topics related to '" ++ title ++ "':" ++ Text.nl ++
                Text.join Text.nl
                  (map (fun topic => "- " ++ topic) related_topics)))).

(** ** Specification-level notions *)

(** The payload the gateway client hands to an operation: the decoded body
    of a 2xx response, [None] in every other case. *)
Definition fetch (net : network) (url : string)
    (params : option (list (string * json))) : json :=
  match net (gateway_request url params) with
  | Fails _ => JNull
  | Responds status body =>
      if ((200 <=? status) && (status <=? 299))%Z
      then match body with Some v => v | None => JNull end
      else JNull
  end.

(** A reply that makes the request fail: [client.get] raised, the status
    is not a success, or the body is not JSON. *)
Definition reply_fails (r : http_reply) : bool :=
  match r with
  | Fails _ => true
  | Responds status body =>
      negb ((200 <=? status) && (status <=? 299))%Z ||
      match body with Some _ => false | None => true end
  end.

(** What reaches the caller of a coroutine whose body ended with [r]. *)
Definition surfaced {A : Type} (r : result A) : result A :=
  match r with
  | Raise StopIteration => Raise RuntimeError
  | _ => r
  end.

(** A field that is missing or holds a string. *)
Definition with_default (default : string) (o : option string) : string :=
  match o with
  | Some s => s
  | None => default
  end.

(** A field of any type, with the default the source gives it. *)
Definition field_or (default : json) (k : string)
    (fields : list (string * json)) : json :=
  match Py.dict_get k fields with
  | Some v => v
  | None => default
  end.

(** One rendered line of the section list. *)
Definition section_line (fields : list (string * json)) : string :=
  "- " ++ Py.str (field_or (JStr "Unknown Section") "line" fields).

(** Every space turned into an underscore, character by character. *)
Fixpoint spaces_to_underscores (s : string) : string :=
  match s with
  | EmptyString => EmptyString
  | String c s' =>
      String (if Ascii.eqb c " "%char then "_"%char else c)
             (spaces_to_underscores s')
  end.

(** [removed m s out]: [out] is [s] with the occurrences of [m] deleted,
    scanning from the left. *)
Inductive removed (m : string) : string -> string -> Prop :=
| removed_end : removed m "" ""
| removed_hit (rest out : string) :
    removed m rest out -> removed m (m ++ rest) out
| removed_keep (c : ascii) (rest out : string) :
    String.prefix m (String c rest) = false ->
    removed m rest out -> removed m (String c rest) (String c out).

(** The highlight tags after their opening bracket. *)
Definition open_tail : string := Text.drop 1 searchmatch_open.
Definition close_tail : string := Text.drop 1 searchmatch_close.

(** A snippet as the search API builds it: text in which the highlight
    tags are the only markup. *)
Inductive segment : Type :=
| Plain (text : string)
| OpenTag
| CloseTag.

Definition render (seg : segment) : string :=
  match seg with
  | Plain text => text
  | OpenTag => searchmatch_open
  | CloseTag => searchmatch_close
  end.

Definition markup_free (seg : segment) : bool :=
  match seg with
  | Plain text => negb (Text.contains "<" text)
  | _ => true
  end.

Fixpoint render_all (segs : list segment) : string :=
  match segs with
  | [] => ""
  | seg :: rest => render seg ++ render_all rest
  end.

Fixpoint plain_text (segs : list segment) : string :=
  match segs with
  | [] => ""
  | Plain text :: rest => text ++ plain_text rest
  | _ :: rest => plain_text rest
  end.

(** The claim's reading of the category clean-up: only a leading
    [Category:] is taken off. *)
Definition strip_category_prefix (s : string) : string :=
  if String.prefix "Category:" s then Text.drop 9 s else s.

(** [data[k1][k2]] when [data] is a mapping whose [k1] is a mapping that
    has [k2]. *)
Definition dig (k1 k2 : string) (data : json) : option json :=
  match data with
  | JObj fields =>
      match Py.dict_get k1 fields with
      | Some (JObj inner) => Py.dict_get k2 inner
      | _ => None
      end
  | _ => None
  end.

(** A payload that is absent or a mapping. *)
Definition decoded (payload : option (list (string * json))) : json :=
  match payload with
  | Some fields => JObj fields
  | None => JNull
  end.


(** The URL at [content_urls.desktop.page], empty when a level is
    missing. *)
Definition nested_page_url (fields : list (string * json)) : json :=
  match Py.dict_get "content_urls" fields with
  | Some (JObj urls) =>
      match Py.dict_get "desktop" urls with
      | Some (JObj desktop) => field_or (JStr "") "page" desktop
      | _ => JStr ""
      end
  | _ => JStr ""
  end.

(** An entry of a link or category list that carries the title [t]. *)
Definition titled (entry : json) (t : string) : Prop :=
  exists fields, entry = JObj fields /\ Py.dict_get "title" fields = Some (JStr t).

(** *** Payload shapes

    The shape each operation reads: a mapping where it calls [.get] or
    subscripts, a list where it loops, a string where it calls
    [.replace]. *)
Module Shape.

Definition is_str (v : json) : bool :=
  match v with JStr _ => true | _ => false end.

Definition is_obj (v : json) : bool :=
  match v with JObj _ => true | _ => false end.

Definition obj_with (shape : list (string * json) -> bool) (v : json) : bool :=
  match v with JObj fields => shape fields | _ => false end.

Definition list_of (shape : json -> bool) (v : json) : bool :=
  match v with JArr items => forallb shape items | _ => false end.

(** The payload is absent or a mapping of the given shape. *)
Definition absent_or (shape : list (string * json) -> bool) (data : json)
  : bool :=
  match data with
  | JNull => true
  | JObj fields => shape fields
  | _ => false
  end.

(** The field is missing or has the given shape. *)
Definition optional (k : string) (shape : json -> bool)
    (fields : list (string * json)) : bool :=
  match Py.dict_get k fields with
  | Some v => shape v
  | None => true
  end.

(** The field is there and has the given shape. *)
Definition required (k : string) (shape : json -> bool)
    (fields : list (string * json)) : bool :=
  match Py.dict_get k fields with
  | Some v => shape v
  | None => false
  end.

(** A mapping of pages that is not empty and whose first page is a
    mapping of the given shape. *)
Definition first_page (shape : list (string * json) -> bool) (pages : json)
  : bool :=
  match pages with
  | JObj ((_, JObj page) :: _) => shape page
  | _ => false
  end.

(** An action-API payload: absent, or a mapping whose [query], if there,
    is a mapping whose field [k], if there, has the given shape. *)
Definition action (k : string) (shape : json -> bool) : json -> bool :=
  absent_or (optional "query" (obj_with (optional k shape))).

Definition hit (fields : list (string * json)) : bool :=
  optional "title" is_str fields && optional "snippet" is_str fields.

Definition summary_fields : list (string * json) -> bool :=
  optional "content_urls" (obj_with (optional "desktop" is_obj)).

Definition search : json -> bool := action "search" (list_of (obj_with hit)).

Definition summary : json -> bool := absent_or summary_fields.

Definition sections : json -> bool :=
  absent_or (optional "sections" (list_of is_obj)).

Definition links : json -> bool :=
  action "pages"
    (first_page
       (optional "links" (list_of (obj_with (Py.dict_has "title"))))).

Definition topics : json -> bool :=
  action "pages"
    (first_page
       (optional "categories" (list_of (obj_with (required "title" is_str))))).

End Shape.

(** The items written one after the other with [sep] between two
    neighbours, defined on its own, apart from the [join] the program
    calls. *)
Fixpoint separated (sep : string) (items : list string) : string :=
  match items with
  | [] => ""
  | item :: rest =>
      match rest with
      | [] => item
      | _ :: _ => item ++ sep ++ separated sep rest
      end
  end.

(** The lines of a text: what [text.split(newline)] gives. *)
Fixpoint split_lines (text : string) : list string :=
  match text with
  | EmptyString => [""]
  | String c rest =>
      if Ascii.eqb c "010"%char then "" :: split_lines rest
      else
        match split_lines rest with
        | line :: lines => String c line :: lines
        | [] => [String c ""]
        end
  end.

(** A text without a newline character. *)
Fixpoint single_line (text : string) : bool :=
  match text with
  | EmptyString => true
  | String c rest => negb (Ascii.eqb c "010"%char) && single_line rest
  end.

(** The number a run of decimal digits stands for. *)
Definition read_count (digits : string) : option nat :=
  option_map Nat.of_uint (NilZero.uint_of_string digits).


(** ** Concrete exchanges

    Networks and payloads on which the statements below are exercised. *)

Module Sample.

Definition reply (payload : json) : http_reply := Responds 200 (Some payload).

(** Every request fails, each in its own way: a server error on the
    action API, a 404 on the summary endpoint, a time-out elsewhere. *)
Definition failing_net : network :=
  fun req =>
    if String.eqb (req_url req) WIKIPEDIA_SEARCH_API
    then Responds 500 None
    else if String.prefix (WIKIPEDIA_API_BASE ++ "/page/summary/") (req_url req)
         then Responds 404 (Some (JObj [("title", JStr "Not found.")]))
         else Fails TimeoutException.

Definition hit (title snippet : string) : json :=
  JObj [("ns", JInt 0); ("title", JStr title); ("snippet", JStr snippet)].

Definition cat_food_fields : list (string * json) :=
  [("title", JStr "Cat_food");
   ("snippet", JStr (searchmatch_open ++ "Cat" ++ searchmatch_close ++ " food"))].

Definition cat_food_segments : list segment :=
  [OpenTag; Plain "Cat"; CloseTag; Plain " food"].

Definition heading (line : string) : list (string * json) :=
  [("toclevel", JInt 1); ("line", JStr line)].

Definition fifteen_sections : list (list (string * json)) :=
  map heading ["1"; "2"; "3"; "4"; "5"; "6"; "7"; "8"; "9"; "10";
               "11"; "12"; "13"; "14"; "15"].

(** Two hits for every search. *)
Definition two_hits : list json :=
  [hit "Test" ("A " ++ searchmatch_open ++ "test" ++ searchmatch_close ++
               " is a procedure");
   hit "Test cricket" "The longest form of cricket"].

Definition search_net : network :=
  fun _ => reply (JObj [("batchcomplete", JStr "");
                        ("query", JObj [("search", JArr two_hits)])]).

(** An article whose section list is empty. *)
Definition empty_sections_net : network :=
  fun _ => reply (JObj [("sections", JArr [])]).

(** A summary response and a sections response for the article Cat. *)
Definition cat_summary : list (string * json) :=
  [("title", JStr "Cat");
   ("extract", JStr "The cat is a small domesticated carnivorous mammal.");
   ("content_urls",
    JObj [("desktop",
           JObj [("page", JStr "https://en.wikipedia.org/wiki/Cat")])])].

Definition cat_sections : list (string * json) :=
  [("sections", JArr [JObj (heading "Etymology"); JObj (heading "Taxonomy")])].

Definition page_of (fields : list (string * json)) : json :=
  JObj [("batchcomplete", JStr "");
        ("query", JObj [("pages", JObj [("6678", JObj fields)])])].

Definition entry (title : string) : json :=
  JObj [("ns", JInt 14); ("title", JStr title)].

Definition cat_links : json :=
  page_of [("title", JStr "Cat");
           ("links", JArr [entry "Felidae"; entry "Kitten"])].

Definition cat_categories : json :=
  page_of [("title", JStr "Cat");
           ("categories",
            JArr [entry "Category:Felines"; entry "Category:Cats";
                  entry "Category:Pets"])].

(** A small Wikipedia: it answers each endpoint the operations call. *)
Definition wiki_net : network :=
  fun req =>
    match req_params req with
    | None =>
        if String.prefix (WIKIPEDIA_API_BASE ++ "/page/summary/") (req_url req)
        then reply (JObj cat_summary)
        else reply (JObj cat_sections)
    | Some params =>
        match Py.dict_get "prop" params with
        | Some (JStr "links") => reply cat_links
        | Some (JStr "categories") => reply cat_categories
        | _ =>
            reply (JObj [("query", JObj [("search", JArr two_hits)])])
        end
    end.


(** A summary whose [content_urls] is null. *)
Definition null_urls_summary : list (string * json) :=
  [("title", JStr "Cat");
   ("extract", JStr "The cat is a small domesticated carnivorous mammal.");
   ("content_urls", JNull)].

Definition null_urls_net : network :=
  fun _ => reply (JObj null_urls_summary).

(** A category whose title has [Category:] inside as well. *)
Definition nested_category_net : network :=
  fun _ => reply (page_of [("categories",
                             JArr [entry "Category:Pages in Category:Felines"])]).

(** No page at all, and a link without a title. *)
Definition no_pages_net : network :=
  fun _ => reply (JObj [("query", JObj [("pages", JObj [])])]).

Definition untitled_entry_net : network :=
  fun _ => reply (page_of [("links", JArr [JObj [("ns", JInt 0)]]);
                           ("categories", JArr [JObj [("ns", JInt 14)]])]).

(** A response with two pages, the first one being the page of
    [cat_links]. *)
Definition cat_links_page : list (string * json) :=
  [("title", JStr "Cat"); ("links", JArr [entry "Felidae"; entry "Kitten"])].

Definition two_pages_net : network :=
  fun _ => reply (JObj [("query",
                        JObj [("pages",
                               JObj [("6678", JObj cat_links_page);
                                     ("4269567", JObj [("title", JStr "Dog")])])])]).

(** A search response whose second hit has a number for a title. *)
Definition bad_hit_net : network :=
  fun _ => reply (JObj [("query",
                        JObj [("search",
                               JArr [hit "Test" "A procedure";
                                     JObj [("title", JInt 7)]])])]).

(** A section whose heading holds a newline, alone and in front of
    fourteen others. *)
Definition two_line_heading : list (string * json) :=
  heading ("See" ++ Text.nl ++ "also").

Definition fifteen_with_two_line_heading : list (list (string * json)) :=
  two_line_heading ::
  map heading ["2"; "3"; "4"; "5"; "6"; "7"; "8"; "9"; "10";
               "11"; "12"; "13"; "14"; "15"].

End Sample.

(** ** Facts about text *)

Section TextFacts.

Lemma append_nil_r (s : string) : s ++ "" = s.
Proof. induction s; simpl; congruence. Qed.

Lemma append_assoc (a b c : string) : (a ++ b) ++ c = a ++ b ++ c.
Proof. induction a; simpl; congruence. Qed.

Lemma prefix_app (p r : string) : String.prefix p (p ++ r) = true.
Proof.
  induction p as [|a p IH]; simpl.
  - destruct r; reflexivity.
  - destruct (ascii_dec a a); [exact IH | congruence].
Qed.

Lemma prefix_split (p s : string) :
  String.prefix p s = true -> s = p ++ Text.drop (String.length p) s.
Proof.
  revert s; induction p as [|a p IH]; intros s H.
  - reflexivity.
  - destruct s as [|b s]; simpl in H; [discriminate|].
    destruct (ascii_dec a b); [subst b|discriminate].
    simpl. f_equal. apply IH, H.
Qed.

Lemma prefix_head_mismatch (a c : ascii) (p s : string) :
  a <> c -> String.prefix (String a p) (String c s) = false.
Proof.
  intros H; simpl. destruct (ascii_dec a c); [contradiction|reflexivity].
Qed.

Lemma drop_app (p r : string) : Text.drop (String.length p) (p ++ r) = r.
Proof. induction p; simpl; auto. Qed.

Lemma length_drop (n : nat) (s : string) :
  String.length (Text.drop n s) = String.length s - n.
Proof.
  revert s; induction n as [|n IH]; intros s.
  - simpl. lia.
  - destruct s; simpl; [reflexivity|apply IH].
Qed.

Lemma replace_scan_skip (old new : string) (k : nat) (s : string) :
  Text.replace_scan old new k s = Text.replace_scan old new 0 (Text.drop k s).
Proof.
  revert k; induction s as [|c s IH]; intros k.
  - destruct k; reflexivity.
  - destruct k as [|k]; [reflexivity|].
    simpl. apply IH.
Qed.

Lemma replace_scan_hit (a : ascii) (old new rest : string) :
  Text.replace_scan (String a old) new 0 (String a old ++ rest) =
  new ++ Text.replace_scan (String a old) new 0 rest.
Proof.
  change (String a old ++ rest) with (String a (old ++ rest)).
  cbn [Text.replace_scan].
  change (String a (old ++ rest)) with (String a old ++ rest).
  rewrite prefix_app. f_equal.
  rewrite replace_scan_skip. cbn [String.length].
  rewrite Nat.sub_succ, Nat.sub_0_r. now rewrite drop_app.
Qed.

Lemma replace_scan_miss (old new : string) (c : ascii) (s : string) :
  String.prefix old (String c s) = false ->
  Text.replace_scan old new 0 (String c s) =
  String c (Text.replace_scan old new 0 s).
Proof. intros H. cbn [Text.replace_scan]. now rewrite H. Qed.

(** Text without the first character of [old] passes through. *)
Lemma replace_scan_through (a : ascii) (old new text rest : string) :
  Text.contains (String a "") text = false ->
  Text.replace_scan (String a old) new 0 (text ++ rest) =
  text ++ Text.replace_scan (String a old) new 0 rest.
Proof.
  induction text as [|c text IH]; intros H; [reflexivity|].
  simpl in H. destruct (ascii_dec a c) as [->|Hne].
  - destruct text; discriminate.
  - change (String c text ++ rest) with (String c (text ++ rest)).
    rewrite replace_scan_miss by (now apply prefix_head_mismatch).
    simpl. f_equal. apply IH, H.
Qed.

Lemma replace_absent (old new s : string) :
  old <> "" -> Text.contains old s = false -> Text.replace old new s = s.
Proof.
  intros Hne; destruct old as [|a old]; [congruence|clear Hne].
  unfold Text.replace.
  induction s as [|c s IH]; intros H; [reflexivity|].
  cbn [Text.contains] in H. apply orb_false_iff in H as [Hp Hc].
  rewrite replace_scan_miss by exact Hp. f_equal. apply IH, Hc.
Qed.

Lemma replace_spaces (s : string) :
  Text.replace " " "_" s = spaces_to_underscores s.
Proof.
  unfold Text.replace.
  induction s as [|c s IH]; [reflexivity|].
  cbn [spaces_to_underscores]. rewrite <- IH.
  destruct (Ascii.eqb_spec c " "%char) as [->|Hne].
  - exact (replace_scan_hit " "%char "" "_" s).
  - apply replace_scan_miss, prefix_head_mismatch. congruence.
Qed.

(** The scan of [replace] deletes exactly the occurrences the relation
    [removed] describes. *)
Lemma replace_removed (m s : string) :
  m <> "" -> removed m s (Text.replace m "" s).
Proof.
  intros Hne; destruct m as [|a m]; [congruence|clear Hne].
  unfold Text.replace.
  remember (String.length s) as n eqn:Hn.
  revert s Hn; induction n as [n IH] using lt_wf_ind; intros s Hn.
  destruct s as [|c s]; [constructor|].
  destruct (String.prefix (String a m) (String c s)) eqn:Hp.
  - pose proof (prefix_split _ _ Hp) as Hs.
    rewrite Hs, replace_scan_hit.
    change ("" ++ ?x) with x.
    apply removed_hit.
    apply (IH (String.length (Text.drop (String.length (String a m)) (String c s)))).
    + subst n. rewrite length_drop. simpl. lia.
    + reflexivity.
  - rewrite replace_scan_miss by exact Hp.
    apply removed_keep; [exact Hp|].
    apply (IH (String.length s)); [subst n; simpl; lia|reflexivity].
Qed.

Lemma removed_functional (m s out1 out2 : string) :
  m <> "" -> removed m s out1 -> removed m s out2 -> out1 = out2.
Proof.
  intros Hne H1; revert out2.
  induction H1 as [|rest out H IH|c rest out Hp H IH]; intros out2 H2.
  - inversion H2 as [|rest2 o2 H2' Heq|]; subst; [reflexivity|].
    destruct m; [congruence|discriminate].
  - inversion H2 as [Heq|rest2 o2 H2' Heq|c2 rest2 o2 Hp2 H2' Heq]; subst.
    + destruct m; [congruence|discriminate].
    + assert (rest2 = rest) as ->.
      { rewrite <- (drop_app m rest2), <- (drop_app m rest). now f_equal. }
      now apply IH.
    + rewrite Heq in Hp2. now rewrite prefix_app in Hp2.
  - inversion H2 as [|rest2 o2 H2' Heq|c2 rest2 o2 Hp2 H2' Heq]; subst.
    + rewrite <- Heq in Hp. now rewrite prefix_app in Hp.
    + f_equal. now apply IH.
Qed.

End TextFacts.

(** ** Facts about the gateway client and the coroutines *)

Section GatewayFacts.

Variable net : network.

(** The gateway client never raises: it returns the payload [fetch]
    describes and logs the one request it sent. *)
Lemma make_wikipedia_request_spec url params log :
  make_wikipedia_request url params net log =
  (Ok (fetch net url params), (log ++ [gateway_request url params])%list).
Proof.
  unfold make_wikipedia_request, coroutine, try_except, abind, client_get,
    lift, fetch, raise_for_status, response_json.
  destruct (net (gateway_request url params)) as [e|status body]; cbn.
  - reflexivity.
  - destruct ((200 <=? status) && (status <=? 299))%Z; cbn; [|reflexivity].
    destruct body; reflexivity.
Qed.

Lemma fetch_failed url params :
  reply_fails (net (gateway_request url params)) = true ->
  fetch net url params = JNull.
Proof.
  unfold fetch, reply_fails.
  destruct (net (gateway_request url params)) as [e|status body]; [reflexivity|].
  destruct ((200 <=? status) && (status <=? 299))%Z; cbn; [|reflexivity].
  destruct body; [discriminate|reflexivity].
Qed.

(** An operation that makes one request and then computes. *)
Lemma run_after_gateway {A : Type} url params (k : json -> result A) :
  run (coroutine (data <~ make_wikipedia_request url params ;; lift (k data)))
      net =
  surfaced (k (fetch net url params)).
Proof.
  unfold run, coroutine, abind. rewrite make_wikipedia_request_spec.
  unfold lift, surfaced; cbn.
  destruct (k (fetch net url params)) as [a|[]]; reflexivity.
Qed.

Lemma sent_after_gateway {A : Type} url params (k : json -> result A) :
  sent (coroutine (data <~ make_wikipedia_request url params ;; lift (k data)))
       net =
  [gateway_request url params].
Proof.
  unfold sent, coroutine, abind. rewrite make_wikipedia_request_spec.
  unfold lift; cbn.
  destruct (k (fetch net url params)) as [a|[]]; reflexivity.
Qed.

Lemma get_wikipedia_summary_run title :
  run (get_wikipedia_summary title) net =
  let data := fetch net (summary_url title) None in
  if negb (Py.truthy data)
  then Ok ("Unable to fetch summary for Wikipedia article '" ++ title ++ "'.")
  else surfaced (format_article_summary data).
Proof.
  unfold get_wikipedia_summary, run, coroutine, abind.
  rewrite make_wikipedia_request_spec. cbn zeta.
  destruct (negb (Py.truthy (fetch net (summary_url title) None))).
  - reflexivity.
  - unfold lift, surfaced; cbn.
    destruct (format_article_summary _) as [a|[]]; reflexivity.
Qed.

(** The article operation stops after the summary request when the
    summary payload is falsy. *)
Lemma get_wikipedia_article_gate title :
  Py.truthy (fetch net (summary_url title) None) = false ->
  run (get_wikipedia_article title) net =
    Ok ("Unable to fetch Wikipedia article '" ++ title ++
        "'. Article may not exist.") /\
  sent (get_wikipedia_article title) net =
    [gateway_request (summary_url title) None].
Proof.
  intros H.
  unfold get_wikipedia_article, run, sent, coroutine, abind.
  rewrite make_wikipedia_request_spec, H. cbn. split; reflexivity.
Qed.

Lemma get_wikipedia_article_run title :
  Py.truthy (fetch net (summary_url title) None) = true ->
  run (get_wikipedia_article title) net =
  surfaced
    (let summary_data := fetch net (summary_url title) None in
     let sections_data := fetch net (sections_url title) None in
     article_info <- format_article_summary summary_data ;;
     has_sections <-
       (if Py.truthy sections_data
        then s <- Py.get sections_data "sections" JNull ;; Ok (Py.truthy s)
        else Ok false) ;;
     if has_sections
     then
       sections <- Py.getitem sections_data "sections" ;;
       sections_list <- format_article_sections sections ;;
       Ok (article_info ++ Text.nl ++ Text.nl ++ "Sections:" ++ Text.nl ++
           sections_list)
     else Ok article_info).
Proof.
  intros H.
  unfold get_wikipedia_article, run, coroutine, abind.
  rewrite make_wikipedia_request_spec, H. cbn [negb].
  rewrite make_wikipedia_request_spec.
  unfold lift. cbv zeta.
  match goal with |- _ = surfaced ?r => destruct r as [a|[]] end;
    reflexivity.
Qed.

End GatewayFacts.

(** ** Facts about loops and formatters *)

Section LoopFacts.

Context {A B : Type}.
Variable f : A -> result B.

Lemma for_each_Forall2 (items : list A) (outs : list B) :
  Forall2 (fun x y => f x = Ok y) items outs -> for_each f items = Ok outs.
Proof.
  induction 1 as [|x y items outs Hxy _ IH]; [reflexivity|].
  cbn. now rewrite Hxy, IH.
Qed.

Lemma for_each_length (items : list A) (outs : list B) :
  for_each f items = Ok outs -> List.length outs = List.length items.
Proof.
  revert outs; induction items as [|x items IH]; intros outs H; cbn in H.
  - now inversion H.
  - destruct (f x) as [y|]; [|discriminate]. cbn in H.
    destruct (for_each f items) as [ys|]; [|discriminate]. cbn in H.
    inversion H; subst. cbn. f_equal. now apply IH.
Qed.

Lemma for_each_total (items : list A) :
  Forall (fun x => exists y, f x = Ok y) items ->
  exists outs, for_each f items = Ok outs.
Proof.
  induction 1 as [|x items [y Hy] _ [ys IH]].
  - now exists [].
  - exists (y :: ys). cbn. now rewrite Hy, IH.
Qed.

End LoopFacts.

Lemma for_each_map {A B C : Type} (f : B -> result C) (g : A -> B)
    (h : A -> C) (items : list A) :
  (forall x, f (g x) = Ok (h x)) ->
  for_each f (map g items) = Ok (map h items).
Proof.
  intros H; induction items as [|x items IH]; [reflexivity|].
  cbn. now rewrite H, IH.
Qed.

Section MarkupFacts.

Lemma strip_open (segs : list segment) :
  forallb markup_free segs = true ->
  Text.replace searchmatch_open "" (render_all segs) =
  render_all (filter (fun seg => match seg with OpenTag => false | _ => true end)
                segs).
Proof.
  change searchmatch_open with (String "<"%char open_tail) at 1.
  unfold Text.replace.
  induction segs as [|seg segs IH]; intros H; [reflexivity|].
  cbn [forallb] in H. apply andb_true_iff in H as [Hseg Hrest].
  specialize (IH Hrest).
  destruct seg as [text| |]; cbn [render_all render filter].
  - rewrite replace_scan_through, IH; [reflexivity|].
    cbn in Hseg. now apply negb_true_iff in Hseg.
  - change searchmatch_open with (String "<"%char open_tail).
    rewrite replace_scan_hit. exact IH.
  - change (searchmatch_close ++ render_all segs)
      with (String "<"%char (close_tail ++ render_all segs)).
    rewrite replace_scan_miss by reflexivity.
    rewrite replace_scan_through by reflexivity.
    now rewrite IH.
Qed.

Lemma strip_close (segs : list segment) :
  forallb markup_free segs = true ->
  Text.replace searchmatch_close ""
    (render_all (filter (fun seg => match seg with OpenTag => false | _ => true end)
                   segs)) =
  plain_text segs.
Proof.
  unfold Text.replace. cbn [searchmatch_close].
  change searchmatch_close with (String "<"%char close_tail).
  induction segs as [|seg segs IH]; intros H; [reflexivity|].
  cbn [forallb] in H. apply andb_true_iff in H as [Hseg Hrest].
  specialize (IH Hrest).
  destruct seg as [text| |]; cbn [render_all render filter plain_text].
  - rewrite replace_scan_through, IH; [reflexivity|].
    cbn in Hseg. now apply negb_true_iff in Hseg.
  - exact IH.
  - change searchmatch_close with (String "<"%char close_tail).
    rewrite replace_scan_hit. exact IH.
Qed.

End MarkupFacts.

(** ** Facts about joined text, lines and counts *)

Lemma join_separated (sep : string) (items : list string) :
  Text.join sep items = separated sep items.
Proof.
  unfold Text.join.
  induction items as [|item rest IH]; [reflexivity|].
  destruct rest as [|next rest]; [reflexivity|].
  cbn [String.concat separated] in *. now rewrite IH.
Qed.

Lemma split_single_line (text : string) :
  single_line text = true -> split_lines text = [text].
Proof.
  induction text as [|c text IH]; [reflexivity|].
  cbn [single_line split_lines]. intros H.
  apply andb_true_iff in H as [Hc Htext].
  apply negb_true_iff in Hc. rewrite Hc, (IH Htext). reflexivity.
Qed.

Lemma split_lines_append (line rest : string) :
  single_line line = true ->
  split_lines (line ++ Text.nl ++ rest) = line :: split_lines rest.
Proof.
  induction line as [|c line IH]; intros H.
  - reflexivity.
  - cbn [single_line] in H. apply andb_true_iff in H as [Hc Hline].
    apply negb_true_iff in Hc.
    change (String c line ++ Text.nl ++ rest)
      with (String c (line ++ Text.nl ++ rest)).
    cbn [split_lines]. rewrite Hc, (IH Hline). reflexivity.
Qed.

Lemma split_separated (first : string) (others : list string) :
  forallb single_line (first :: others) = true ->
  split_lines (separated Text.nl (first :: others)) = first :: others.
Proof.
  revert first; induction others as [|next others IH]; intros first H.
  - cbn in H. rewrite andb_true_r in H. now apply split_single_line.
  - cbn [forallb] in H. apply andb_true_iff in H as [Hfirst Hrest].
    change (separated Text.nl (first :: next :: others))
      with (first ++ Text.nl ++ separated Text.nl (next :: others)).
    rewrite (split_lines_append _ _ Hfirst). f_equal. now apply IH.
Qed.

Lemma of_nat_reads_back (n : nat) : read_count (Text.of_nat n) = Some n.
Proof.
  unfold read_count, Text.of_nat.
  rewrite NilZero.usu.
  - cbn. f_equal. apply DecimalNat.Unsigned.of_to.
  - intros H.
    assert (Hn : n = 0)
      by (rewrite <- (DecimalNat.Unsigned.of_to n), H; reflexivity).
    subst n. discriminate H.
Qed.

Lemma format_article_sections_separated (first : list (string * json))
    (others : list (list (string * json))) :
  format_article_sections (JArr (map JObj (first :: others))) =
    Ok (separated Text.nl (map section_line (firstn 10 (first :: others)))).
Proof.
  unfold format_article_sections.
  change (Py.truthy (JArr (map JObj (first :: others)))) with true.
  cbn [negb].
  change (Py.slice (JArr (map JObj (first :: others))) 10)
    with (Ok (JArr (firstn 10 (map JObj (first :: others))))).
  cbn [bind Py.iter]. rewrite firstn_map.
  rewrite (for_each_map _ JObj section_line).
  - cbn [bind]. now rewrite join_separated.
  - intros fields. unfold section_line, field_or. cbn.
    destruct (Py.dict_get "line" fields); reflexivity.
Qed.

(** ** The gateway client and the fallbacks *)

(** C1.  When every HTTP request fails (time-out, transport error, a status
    that is not a success, a body that is not JSON), each of the six tool
    operations returns its own fallback string; nothing is raised. *)
Theorem tools_fall_back_when_requests_fail (net : network)
    (query title : string) (limit : Z) :
  (forall req, reply_fails (net req) = true) ->
  run (search_wikipedia query limit) net =
    Ok "Unable to search Wikipedia or no results found." /\
  run (get_wikipedia_article title) net =
    Ok ("Unable to fetch Wikipedia article '" ++ title ++
        "'. Article may not exist.") /\
  run (get_wikipedia_summary title) net =
    Ok ("Unable to fetch summary for Wikipedia article '" ++ title ++ "'.") /\
  run (get_wikipedia_sections title) net =
    Ok ("Unable to fetch sections for Wikipedia article '" ++ title ++ "'.") /\
  run (get_wikipedia_links title limit) net =
    Ok ("Unable to fetch links for Wikipedia article '" ++ title ++ "'.") /\
  run (get_related_topics title limit) net =
    Ok ("Unable to fetch related topics for Wikipedia article '" ++ title ++ "'.").
Proof.
  intros Hfail.
  assert (Hnone : forall url params, fetch net url params = JNull)
    by (intros; apply fetch_failed, Hfail).
  repeat split.
  - unfold search_wikipedia. now rewrite run_after_gateway, Hnone.
  - apply get_wikipedia_article_gate. now rewrite Hnone.
  - now rewrite get_wikipedia_summary_run, Hnone.
  - unfold get_wikipedia_sections. now rewrite run_after_gateway, Hnone.
  - unfold get_wikipedia_links. now rewrite run_after_gateway, Hnone.
  - unfold get_related_topics. now rewrite run_after_gateway, Hnone.
Qed.

Lemma tools_fall_back_when_requests_fail_witness :
  (forall req, reply_fails (Sample.failing_net req) = true) /\
  run (search_wikipedia "cats" 10) Sample.failing_net =
    Ok "Unable to search Wikipedia or no results found." /\
  run (get_wikipedia_article "Cat") Sample.failing_net =
    Ok "Unable to fetch Wikipedia article 'Cat'. Article may not exist." /\
  run (get_wikipedia_summary "Cat") Sample.failing_net =
    Ok "Unable to fetch summary for Wikipedia article 'Cat'." /\
  run (get_wikipedia_sections "Cat") Sample.failing_net =
    Ok "Unable to fetch sections for Wikipedia article 'Cat'." /\
  run (get_wikipedia_links "Cat" 10) Sample.failing_net =
    Ok "Unable to fetch links for Wikipedia article 'Cat'." /\
  run (get_related_topics "Cat" 10) Sample.failing_net =
    Ok "Unable to fetch related topics for Wikipedia article 'Cat'.".
Proof.
  assert (H : forall req, reply_fails (Sample.failing_net req) = true).
  { intros req. unfold Sample.failing_net.
    destruct (String.eqb (req_url req) WIKIPEDIA_SEARCH_API); [reflexivity|].
    destruct (String.prefix _ (req_url req)); reflexivity. }
  split; [exact H|].
  exact (tools_fall_back_when_requests_fail Sample.failing_net "cats" "Cat" 10 H).
Defined.

(** The failures the specification names are failures of the model. *)
Lemma named_failures_fail (body : option json) :
  reply_fails (Fails TimeoutException) = true /\
  reply_fails (Fails ConnectError) = true /\
  reply_fails (Responds 404 body) = true /\
  reply_fails (Responds 500 body) = true.
Proof. repeat split. Qed.

(** ** Request limits *)

(** C5.  The search operation sends one request to the action API whose
    parameters carry, as [srlimit], the caller's limit capped at 20; the
    links operation sends one whose [pllimit] is the limit capped at 50.  A
    limit at or below the cap, zero and negative values included, is sent
    unchanged. *)
Theorem request_limit_is_capped (net : network) (query title : string)
    (limit : Z) :
  map req_url (sent (search_wikipedia query limit) net) =
    ["https://en.wikipedia.org/w/api.php"] /\
  map req_params (sent (search_wikipedia query limit) net) =
    [Some [("action", JStr "query"); ("format", JStr "json");
           ("list", JStr "search"); ("srsearch", JStr query);
           ("srlimit", JInt (if (20 <? limit)%Z then 20 else limit))]] /\
  map req_url (sent (get_wikipedia_links title limit) net) =
    ["https://en.wikipedia.org/w/api.php"] /\
  map req_params (sent (get_wikipedia_links title limit) net) =
    [Some [("action", JStr "query"); ("format", JStr "json");
           ("titles", JStr title); ("prop", JStr "links");
           ("pllimit", JInt (if (50 <? limit)%Z then 50 else limit))]].
Proof.
  assert (Hsearch : Z.min limit 20 = if (20 <? limit)%Z then 20%Z else limit)
    by (destruct (Z.ltb_spec 20 limit); lia).
  assert (Hlinks : Z.min limit 50 = if (50 <? limit)%Z then 50%Z else limit)
    by (destruct (Z.ltb_spec 50 limit); lia).
  unfold search_wikipedia, get_wikipedia_links.
  rewrite !sent_after_gateway.
  unfold search_params, links_params.
  cbn [map req_url req_params gateway_request].
  rewrite Hsearch, Hlinks. repeat split.
Qed.

Example search_limit_100_sends_20 :
  map req_params (sent (search_wikipedia "Test" 100) Sample.failing_net) =
  [Some [("action", JStr "query"); ("format", JStr "json");
         ("list", JStr "search"); ("srsearch", JStr "Test");
         ("srlimit", JInt 20)]].
Proof. reflexivity. Qed.

Example links_limit_0_sends_0 :
  map req_params (sent (get_wikipedia_links "Cat" 0) Sample.failing_net) =
  [Some [("action", JStr "query"); ("format", JStr "json");
         ("titles", JStr "Cat"); ("prop", JStr "links");
         ("pllimit", JInt 0)]].
Proof. reflexivity. Qed.

(** ** The formatters *)

(** C7, as the code has it.  [format_article_sections] answers
    [No sections found.] for an absent or empty list; for a non-empty list
    of section mappings it returns the items [- heading] of the first ten
    entries, in order, with a newline between two neighbours and
    [Unknown Section] for a missing heading.  When none of these headings
    holds a newline, the lines of the text are exactly these items: one
    line per entry, ten at most, each starting with [- ]. *)
Theorem format_article_sections_first_ten
    (first : list (string * json)) (others : list (list (string * json))) :
  let entries := first :: others in
  let lines := map section_line (firstn 10 entries) in
  format_article_sections JNull = Ok "No sections found." /\
  format_article_sections (JArr []) = Ok "No sections found." /\
  section_line [] = "- Unknown Section" /\
  exists text,
    format_article_sections (JArr (map JObj entries)) = Ok text /\
    text = separated Text.nl lines /\
    (forallb single_line lines = true ->
     split_lines text = lines /\
     List.length (split_lines text) = Nat.min 10 (List.length entries) /\
     Forall (fun line => String.prefix "- " line = true) (split_lines text)).
Proof.
  intros entries lines.
  split; [reflexivity|split; [reflexivity|split; [reflexivity|]]].
  exists (separated Text.nl lines).
  split; [apply format_article_sections_separated|split; [reflexivity|]].
  intros Hsingle.
  assert (Hsplit : split_lines (separated Text.nl lines) = lines).
  { unfold lines, entries in *. cbn [firstn map] in *.
    now apply split_separated. }
  rewrite Hsplit. split; [reflexivity|split].
  - unfold lines. now rewrite length_map, length_firstn.
  - unfold lines. apply Forall_forall. intros line Hin.
    apply in_map_iff in Hin as [fields [<- _]]. apply (prefix_app "- ").
Qed.

Lemma format_article_sections_first_ten_witness :
  exists text,
    format_article_sections (JArr (map JObj Sample.fifteen_sections)) = Ok text /\
    text = "- 1" ++ Text.nl ++ "- 2" ++ Text.nl ++ "- 3" ++ Text.nl ++
           "- 4" ++ Text.nl ++ "- 5" ++ Text.nl ++ "- 6" ++ Text.nl ++
           "- 7" ++ Text.nl ++ "- 8" ++ Text.nl ++ "- 9" ++ Text.nl ++ "- 10" /\
    split_lines text =
      ["- 1"; "- 2"; "- 3"; "- 4"; "- 5"; "- 6"; "- 7"; "- 8"; "- 9"; "- 10"] /\
    List.length (split_lines text) = 10.
Proof.
  destruct (format_article_sections_first_ten (Sample.heading "1")
              (map Sample.heading
                 ["2"; "3"; "4"; "5"; "6"; "7"; "8"; "9"; "10";
                  "11"; "12"; "13"; "14"; "15"]))
    as [_ [_ [_ [text [Hrun [Htext Hlines]]]]]].
  destruct (Hlines eq_refl) as [Hsplit [Hlen _]].
  exists text. split; [exact Hrun|].
  split; [exact Htext|]. split; [exact Hsplit|exact Hlen].
Defined.

(** C7, as stated, fails: a heading that holds a newline gives two lines
    for one entry, the second one without the [- ] in front, and a list of
    fifteen such sections gives eleven lines. *)
Lemma format_article_sections_two_line_heading :
  format_article_sections (JArr [JObj Sample.two_line_heading]) =
    Ok ("- See" ++ Text.nl ++ "also") /\
  split_lines ("- See" ++ Text.nl ++ "also") = ["- See"; "also"] /\
  String.prefix "- " "also" = false /\
  exists text,
    format_article_sections
      (JArr (map JObj Sample.fifteen_with_two_line_heading)) = Ok text /\
    List.length (split_lines text) = 11.
Proof.
  split; [reflexivity|split; [reflexivity|split; [reflexivity|]]].
  eexists. split; reflexivity.
Qed.

Example fifteen_sections_give_ten_lines :
  format_article_sections (JArr (map JObj Sample.fifteen_sections)) =
  Ok (Text.join Text.nl
        ["- 1"; "- 2"; "- 3"; "- 4"; "- 5"; "- 6"; "- 7"; "- 8"; "- 9"; "- 10"]).
Proof. reflexivity. Qed.

(** C8.  [format_search_result] renders the title (default [Unknown]), the
    snippet (default [No description available]) with every occurrence of
    the opening and of the closing highlight tag deleted, and the article
    URL made of the fixed prefix and the title with its spaces turned into
    underscores.  On a snippet whose only markup is highlight tags the
    description is the text between the tags. *)
Theorem format_search_result_strips_markup (fields : list (string * json))
    (otitle osnippet : option string) :
  Py.dict_get "title" fields = option_map JStr otitle ->
  Py.dict_get "snippet" fields = option_map JStr osnippet ->
  let title := with_default "Unknown" otitle in
  let snippet := with_default "No description available" osnippet in
  exists description,
    format_search_result (JObj fields) =
      Ok ("Title: " ++ title ++ Text.nl ++
          "Description: " ++ description ++ Text.nl ++
          "URL: https://en.wikipedia.org/wiki/" ++ spaces_to_underscores title) /\
    (exists opened,
       removed searchmatch_open snippet opened /\
       removed searchmatch_close opened description) /\
    (forall segs,
       forallb markup_free segs = true -> snippet = render_all segs ->
       description = plain_text segs).
Proof.
  intros Ht Hs title snippet.
  exists (Text.replace searchmatch_close ""
            (Text.replace searchmatch_open "" snippet)).
  split; [|split].
  - unfold format_search_result, Py.get. rewrite Ht, Hs.
    assert (Et : match option_map JStr otitle with
                 | Some x => Ok x | None => Ok (JStr "Unknown") end
                 = Ok (JStr title)) by (destruct otitle; reflexivity).
    assert (Es : match option_map JStr osnippet with
                 | Some x => Ok x
                 | None => Ok (JStr "No description available") end
                 = Ok (JStr snippet)) by (destruct osnippet; reflexivity).
    rewrite Et, Es. cbn [bind Py.replace Py.str].
    now rewrite replace_spaces.
  - exists (Text.replace searchmatch_open "" snippet).
    split; apply replace_removed; discriminate.
  - intros segs Hfree ->. now rewrite strip_open, strip_close.
Qed.

Lemma format_search_result_strips_markup_witness :
  exists description,
    format_search_result (JObj Sample.cat_food_fields) =
      Ok ("Title: Cat_food" ++ Text.nl ++
          "Description: " ++ description ++ Text.nl ++
          "URL: https://en.wikipedia.org/wiki/Cat_food") /\
    description = "Cat food".
Proof.
  destruct (format_search_result_strips_markup Sample.cat_food_fields
              (Some "Cat_food")
              (Some (searchmatch_open ++ "Cat" ++ searchmatch_close ++ " food"))
              eq_refl eq_refl) as [description [Hrun [_ Hsegs]]].
  exists description. split; [exact Hrun|].
  exact (Hsegs Sample.cat_food_segments eq_refl eq_refl).
Defined.

(** ** Search *)

Lemma dict_get_truthy (k : string) (fields : list (string * json)) (v : json) :
  Py.dict_get k fields = Some v -> Py.truthy (JObj fields) = true.
Proof. destruct fields; [discriminate|reflexivity]. Qed.

(** The presence test of the action-API operations lets a payload through
    exactly when [data["query"][k]] can be read. *)
Lemma guard_passes (k : string) (data v : json) :
  dig "query" k data = Some v ->
  or_else (Ok (negb (Py.truthy data)))
    (or_else (Py.not_in "query" data)
       (q <- Py.getitem data "query" ;; Py.not_in k q)) = Ok false /\
  (q <- Py.getitem data "query" ;; Py.getitem q k) = Ok v.
Proof.
  unfold dig. destruct data as [| | | | | |fields]; try discriminate.
  destruct (Py.dict_get "query" fields) as [[| | | | | |inner]|] eqn:Hq;
    try discriminate.
  intros Hk.
  unfold or_else, Py.not_in, Py.contains, Py.getitem, Py.dict_has.
  rewrite (dict_get_truthy _ _ _ Hq), Hq. cbn. rewrite Hk. split; reflexivity.
Qed.

(** ** Sections *)

(** C10.  For a payload that is absent or a mapping, the sections operation
    returns its fallback exactly when the payload is absent or has no
    [sections] key; a [sections] key holding an empty list gives the header
    line followed by [No sections found.]. *)
Theorem get_wikipedia_sections_fallback (net : network) (title : string)
    (payload : option (list (string * json))) :
  fetch net (sections_url title) None = decoded payload ->
  (run (get_wikipedia_sections title) net =
     Ok ("Unable to fetch sections for Wikipedia article '" ++ title ++ "'.")
   <->
   payload = None \/
   exists fields, payload = Some fields /\ Py.dict_get "sections" fields = None) /\
  (forall fields,
     payload = Some fields -> Py.dict_get "sections" fields = Some (JArr []) ->
     run (get_wikipedia_sections title) net =
       Ok ("Sections for '" ++ title ++ "':" ++ Text.nl ++ "No sections found.")).
Proof.
  intros Hdata. unfold get_wikipedia_sections.
  rewrite run_after_gateway, Hdata.
  destruct payload as [fields|]; cbn [decoded].
  - unfold or_else, Py.not_in, Py.contains, Py.getitem, Py.dict_has.
    destruct (Py.dict_get "sections" fields) as [secs|] eqn:Hsec.
    + rewrite (dict_get_truthy _ _ _ Hsec). cbn [negb bind].
      split.
      * split.
        -- destruct (format_article_sections secs) as [listing|e]; cbn.
           ++ discriminate.
           ++ destruct e; discriminate.
        -- intros [Hnone|[fields' [Heq Hnone]]]; [discriminate|].
           inversion Heq; subst. congruence.
      * intros fields' Heq Hempty. inversion Heq; subst.
        rewrite Hsec in Hempty. inversion Hempty; subst. reflexivity.
    + split.
      * split.
        -- intros _. right. now exists fields.
        -- intros _. destruct (Py.truthy (JObj fields)); reflexivity.
      * intros fields' Heq Hempty. inversion Heq; subst. congruence.
  - split.
    + split; [now left|reflexivity].
    + discriminate.
Qed.

Lemma get_wikipedia_sections_fallback_witness :
  fetch Sample.empty_sections_net (sections_url "Cat") None =
    decoded (Some [("sections", JArr [])]) /\
  run (get_wikipedia_sections "Cat") Sample.empty_sections_net =
    Ok ("Sections for 'Cat':" ++ Text.nl ++ "No sections found.").
Proof.
  split; [reflexivity|].
  exact (proj2 (get_wikipedia_sections_fallback Sample.empty_sections_net "Cat"
                  (Some [("sections", JArr [])]) eq_refl)
           _ eq_refl eq_refl).
Defined.

(** ** Article summary and article *)

(** What the summary formatter returns when the levels of
    [content_urls.desktop] that are there are mappings. *)
Lemma format_article_summary_shaped (fields : list (string * json)) :
  Shape.summary_fields fields = true ->
  format_article_summary (JObj fields) =
    Ok ("Title: " ++ Py.str (field_or (JStr "Unknown") "title" fields) ++
        Text.nl ++
        "Summary: " ++
        Py.str (field_or (JStr "No summary available") "extract" fields) ++
        Text.nl ++
        "URL: " ++ Py.str (nested_page_url fields)).
Proof.
  unfold Shape.summary_fields, Shape.optional, Shape.obj_with, Shape.is_obj,
    format_article_summary, nested_page_url, field_or, Py.get.
  intros H.
  destruct (Py.dict_get "title" fields), (Py.dict_get "extract" fields);
    cbn [bind];
    (destruct (Py.dict_get "content_urls" fields) as [[| | | | | |urls]|];
     try discriminate; cbn [bind];
     [destruct (Py.dict_get "desktop" urls) as [[| | | | | |desktop]|];
      try discriminate; cbn [bind];
      [destruct (Py.dict_get "page" desktop); reflexivity | reflexivity]
     | reflexivity]).
Qed.

(** C9, as the code has it.  [format_article_summary] returns, for every
    mapping whose [content_urls] and [content_urls.desktop] are mappings
    when they are there, the title (default [Unknown]), the extract
    (default [No summary available]) and the URL at
    [content_urls.desktop.page], which is empty when a level is missing. *)
Theorem format_article_summary_defaults (fields : list (string * json)) :
  Shape.summary_fields fields = true ->
  format_article_summary (JObj fields) =
    Ok ("Title: " ++ Py.str (field_or (JStr "Unknown") "title" fields) ++
        Text.nl ++
        "Summary: " ++
        Py.str (field_or (JStr "No summary available") "extract" fields) ++
        Text.nl ++
        "URL: " ++ Py.str (nested_page_url fields)) /\
  (Py.dict_get "content_urls" fields = None \/
   dig "content_urls" "desktop" (JObj fields) = None \/
   (exists desktop,
      dig "content_urls" "desktop" (JObj fields) = Some (JObj desktop) /\
      Py.dict_get "page" desktop = None) ->
   nested_page_url fields = JStr "").
Proof.
  intros H. split; [now apply format_article_summary_shaped|].
  revert H.
  unfold Shape.summary_fields, Shape.optional, Shape.obj_with, Shape.is_obj,
    nested_page_url, dig, field_or.
  destruct (Py.dict_get "content_urls" fields) as [[| | | | | |urls]|];
    try discriminate; [|reflexivity].
  destruct (Py.dict_get "desktop" urls) as [[| | | | | |desktop]|];
    try discriminate; [|reflexivity].
  intros _ [Habs|[Habs|[desktop' [Heq Hpage]]]]; try discriminate.
  inversion Heq; subst. now rewrite Hpage.
Qed.

Lemma format_article_summary_defaults_witness :
  Shape.summary_fields Sample.cat_summary = true /\
  format_article_summary (JObj Sample.cat_summary) =
    Ok ("Title: Cat" ++ Text.nl ++
        "Summary: The cat is a small domesticated carnivorous mammal." ++
        Text.nl ++
        "URL: https://en.wikipedia.org/wiki/Cat").
Proof.
  split; [reflexivity|].
  exact (proj1 (format_article_summary_defaults Sample.cat_summary eq_refl)).
Defined.

(** C9, as stated, fails: a mapping whose [content_urls] is null makes the
    formatter raise. *)
Lemma format_article_summary_null_urls_raises :
  format_article_summary (JObj Sample.null_urls_summary) = Raise AttributeError /\
  ~ (exists text, format_article_summary (JObj Sample.null_urls_summary) = Ok text).
Proof.
  assert (H : format_article_summary (JObj Sample.null_urls_summary) =
              Raise AttributeError) by reflexivity.
  split; [exact H|].
  intros [text Htext]. rewrite H in Htext. discriminate.
Qed.




(** ** Related topics *)

Lemma for_each_titled (f : json -> result string) (g : string -> string)
    (entries : list json) (titles : list string) :
  (forall entry t, titled entry t -> f entry = Ok (g t)) ->
  Forall2 titled entries titles ->
  for_each f entries = Ok (map g titles).
Proof.
  intros Hf H. apply for_each_Forall2.
  induction H as [|entry t entries titles Ht _ IH]; cbn; constructor; auto.
Qed.

Lemma slice_upto_nat {A : Type} (items : list A) (n : nat) :
  Py.slice_upto items (Z.of_nat n) = firstn n items.
Proof.
  unfold Py.slice_upto.
  destruct (Z.leb_spec 0 (Z.of_nat n)); [|lia].
  now rewrite Nat2Z.id.
Qed.

Lemma category_prefix_removed (rest : string) :
  Text.contains "Category:" rest = false ->
  Text.replace "Category:" "" ("Category:" ++ rest) = rest.
Proof.
  intros H. unfold Text.replace.
  rewrite (replace_scan_hit "C"%char "ategory:" "" rest).
  apply (replace_absent "Category:" "" rest); [discriminate|exact H].
Qed.

(** C6, as the code has it.  The related-topics operation asks the server
    for a fixed 20 categories, deletes every occurrence of [Category:] from
    each category title (for a title that has it only in front, that is
    the prefix), keeps [topics[:limit]] (the first [limit] topics for a
    limit that is not negative) and renders each as a line [- topic]. *)
Theorem get_related_topics_lists_categories (net : network) (title : string)
    (limit : Z) (page_id : string) (page : list (string * json))
    (other_pages : list (string * json)) (entries : list json)
    (titles : list string) :
  dig "query" "pages"
      (fetch net WIKIPEDIA_SEARCH_API (Some (categories_params title))) =
    Some (JObj ((page_id, JObj page) :: other_pages)) ->
  Py.dict_get "categories" page = Some (JArr entries) ->
  Forall2 titled entries titles ->
  let topics := map (Text.replace "Category:" "") titles in
  run (get_related_topics title limit) net =
    Ok ("Topics related to '" ++ title ++ "':" ++ Text.nl ++
        Text.join Text.nl
          (map (fun topic => "- " ++ topic) (Py.slice_upto topics limit))) /\
  sent (get_related_topics title limit) net =
    [gateway_request WIKIPEDIA_SEARCH_API (Some (categories_params title))] /\
  Py.dict_get "cllimit" (categories_params title) = Some (JInt 20) /\
  (forall n : nat, Py.slice_upto topics (Z.of_nat n) = firstn n topics) /\
  (forall rest,
     Text.contains "Category:" rest = false ->
     Text.replace "Category:" "" ("Category:" ++ rest) = rest).
Proof.
  intros Hdig Hcat Htitles topics.
  split; [|split; [|split; [reflexivity|split]]].
  - apply guard_passes in Hdig as [Hguard Hread].
    unfold get_related_topics. rewrite run_after_gateway.
    set (data := fetch net WIKIPEDIA_SEARCH_API _) in *.
    rewrite Hguard. cbn [bind].
    unfold bind at 1 in Hread.
    destruct (Py.getitem data "query") as [q|]; [|discriminate].
    cbn [bind]. rewrite Hread.
    cbn [bind Py.values Py.next_iter map snd].
    unfold Py.not_in, Py.contains, Py.dict_has, Py.getitem.
    rewrite Hcat. cbn [bind negb Py.iter].
    rewrite (for_each_titled _ (Text.replace "Category:" "") entries titles);
      [reflexivity| |exact Htitles].
    intros entry t [fields [-> Ht]]. now rewrite Ht.
  - unfold get_related_topics. now rewrite sent_after_gateway.
  - intros n. apply slice_upto_nat.
  - apply category_prefix_removed.
Qed.

Lemma get_related_topics_lists_categories_witness :
  run (get_related_topics "Cat" 2) Sample.wiki_net =
    Ok ("Topics related to 'Cat':" ++ Text.nl ++
        "- Felines" ++ Text.nl ++ "- Cats").
Proof.
  refine (proj1 (get_related_topics_lists_categories Sample.wiki_net "Cat" 2
                   "6678" _ [] _
                   ["Category:Felines"; "Category:Cats"; "Category:Pets"]
                   eq_refl eq_refl _)).
  repeat constructor; eexists; split; reflexivity.
Defined.

(** C6, as stated, fails: [Category:] is deleted wherever it occurs in a
    title, not only in front. *)
Lemma get_related_topics_inner_category :
  run (get_related_topics "Cat" 10) Sample.nested_category_net =
    Ok ("Topics related to 'Cat':" ++ Text.nl ++ "- Pages in Felines") /\
  strip_category_prefix "Category:Pages in Category:Felines" =
    "Pages in Category:Felines" /\
  run (get_related_topics "Cat" 10) Sample.nested_category_net <>
    Ok ("Topics related to 'Cat':" ++ Text.nl ++ "- " ++
        strip_category_prefix "Category:Pages in Category:Felines").
Proof.
  repeat split; discriminate.
Qed.

(** ** Totality on the expected payload shapes *)

Section ShapeFacts.

Local Abbreviation guard k data :=
  (or_else (Ok (negb (Py.truthy data)))
     (or_else (Py.not_in "query" data)
        (q <- Py.getitem data "query" ;; Py.not_in k q))).

(** An action-API payload of the expected shape is stopped by the
    presence test, or carries [query.k] in the expected shape. *)
Lemma action_shape_cases (k : string) (inner : json -> bool) (data : json) :
  Shape.action k inner data = true ->
  guard k data = Ok true \/
  exists v, dig "query" k data = Some v /\ inner v = true.
Proof.
  unfold Shape.action, Shape.absent_or, Shape.optional, Shape.obj_with, dig.
  destruct data as [| | | | | |fields]; try discriminate.
  - intros _. left. reflexivity.
  - unfold or_else, Py.not_in, Py.contains, Py.getitem, Py.dict_has.
    destruct (Py.dict_get "query" fields) as [[| | | | | |inner_fields]|] eqn:Hq;
      try discriminate.
    + rewrite (dict_get_truthy _ _ _ Hq). cbn [negb bind].
      destruct (Py.dict_get k inner_fields) as [v|].
      * intros H. right. now exists v.
      * intros _. left. reflexivity.
    + intros _. left. destruct (Py.truthy (JObj fields)); reflexivity.
Qed.

Lemma for_each_shaped {B : Type} (f : json -> result B)
    (shape : json -> bool) (items : list json) :
  (forall x, shape x = true -> exists y, f x = Ok y) ->
  forallb shape items = true ->
  exists outs, for_each f items = Ok outs.
Proof.
  intros Hf H. apply for_each_total, Forall_forall.
  intros x Hin. apply Hf. revert x Hin. now apply forallb_forall.
Qed.

Lemma forallb_firstn {A : Type} (p : A -> bool) (n : nat) (items : list A) :
  forallb p items = true -> forallb p (firstn n items) = true.
Proof.
  revert n; induction items as [|x items IH]; intros [|n] H; try reflexivity.
  cbn in *. apply andb_true_iff in H as [Hx Hrest].
  now rewrite Hx, IH.
Qed.

Lemma format_search_result_total (v : json) :
  Shape.obj_with Shape.hit v = true ->
  exists text, format_search_result v = Ok text.
Proof.
  destruct v as [| | | | | |fields]; try discriminate.
  unfold Shape.obj_with, Shape.hit, Shape.optional, Shape.is_str,
    format_search_result, Py.get.
  intros H. apply andb_true_iff in H as [Ht Hs].
  destruct (Py.dict_get "title" fields) as [[| | | |t| |]|]; try discriminate;
    (destruct (Py.dict_get "snippet" fields) as [[| | | |s| |]|];
     try discriminate; eexists; reflexivity).
Qed.

Lemma format_article_sections_total (v : json) :
  Shape.list_of Shape.is_obj v = true ->
  exists text, format_article_sections v = Ok text.
Proof.
  destruct v as [| | | | |items|]; try discriminate.
  unfold Shape.list_of, format_article_sections.
  destruct items as [|first others]; [now eexists|].
  intros H.
  change (Py.truthy (JArr (first :: others))) with true. cbn [negb].
  change (Py.slice (JArr (first :: others)) 10)
    with (Ok (JArr (firstn 10 (first :: others)))).
  cbn [bind Py.iter].
  destruct (for_each_shaped
              (fun section =>
                 line <- Py.get section "line" (JStr "Unknown Section") ;;
                 Ok ("- " ++ Py.str line))
              Shape.is_obj (firstn 10 (first :: others))) as [lines Hlines].
  - intros [| | | | | |fields]; try discriminate. intros _.
    unfold Py.get. destruct (Py.dict_get "line" fields); eexists; reflexivity.
  - now apply forallb_firstn.
  - rewrite Hlines. now eexists.
Qed.

Variable net : network.

Lemma search_wikipedia_total query limit :
  Shape.search
    (fetch net WIKIPEDIA_SEARCH_API (Some (search_params query limit))) = true ->
  exists text, run (search_wikipedia query limit) net = Ok text.
Proof.
  intros H. unfold search_wikipedia. rewrite run_after_gateway.
  set (data := fetch net WIKIPEDIA_SEARCH_API _) in *.
  apply action_shape_cases in H as [Hstop|[v [Hdig Hv]]].
  - rewrite Hstop. now eexists.
  - apply guard_passes in Hdig as [Hguard Hread].
    rewrite Hguard. cbn [bind]. unfold bind at 1 in Hread.
    destruct (Py.getitem data "query") as [q|]; [|discriminate].
    cbn [bind]. rewrite Hread. cbn [bind].
    destruct v as [| | | | |hits|]; try discriminate.
    destruct hits as [|h hits]; [now eexists|].
    change (Py.truthy (JArr (h :: hits))) with true. cbn [negb Py.iter bind].
    destruct (for_each_shaped format_search_result _ (h :: hits)
                format_search_result_total Hv) as [entries ->].
    now eexists.
Qed.

Lemma get_wikipedia_summary_total title :
  Shape.summary (fetch net (summary_url title) None) = true ->
  exists text, run (get_wikipedia_summary title) net = Ok text.
Proof.
  intros H. rewrite get_wikipedia_summary_run. cbv zeta.
  destruct (fetch net (summary_url title) None) as [| | | | | |fields];
    try discriminate; [now eexists|].
  destruct (negb (Py.truthy (JObj fields))); [now eexists|].
  rewrite (format_article_summary_shaped _ H). now eexists.
Qed.

Lemma get_wikipedia_article_total title :
  Shape.summary (fetch net (summary_url title) None) = true ->
  Shape.sections (fetch net (sections_url title) None) = true ->
  exists text, run (get_wikipedia_article title) net = Ok text.
Proof.
  intros Hsum Hsec.
  destruct (Py.truthy (fetch net (summary_url title) None)) eqn:Htruthy.
  2: { destruct (get_wikipedia_article_gate net title Htruthy) as [-> _].
       now eexists. }
  rewrite (get_wikipedia_article_run _ _ Htruthy). cbv zeta.
  destruct (fetch net (summary_url title) None) as [| | | | | |fields];
    try discriminate.
  rewrite (format_article_summary_shaped _ Hsum). cbn [bind].
  destruct (fetch net (sections_url title) None) as [| | | | | |sfields];
    try discriminate; [now eexists|].
  unfold Shape.sections, Shape.absent_or, Shape.optional in Hsec.
  unfold Py.get, Py.getitem.
  destruct (Py.truthy (JObj sfields)); [|now eexists].
  destruct (Py.dict_get "sections" sfields) as [secs|]; [|now eexists].
  cbn [bind]. destruct (Py.truthy secs); [|now eexists].
  destruct (format_article_sections_total _ Hsec) as [listing ->].
  now eexists.
Qed.

Lemma get_wikipedia_sections_total title :
  Shape.sections (fetch net (sections_url title) None) = true ->
  exists text, run (get_wikipedia_sections title) net = Ok text.
Proof.
  intros H. unfold get_wikipedia_sections. rewrite run_after_gateway.
  destruct (fetch net (sections_url title) None) as [| | | | | |fields];
    try discriminate; [now eexists|].
  unfold Shape.sections, Shape.absent_or, Shape.optional in H.
  unfold or_else, Py.not_in, Py.contains, Py.getitem, Py.dict_has.
  destruct (Py.dict_get "sections" fields) as [secs|] eqn:Hsecs.
  - rewrite (dict_get_truthy _ _ _ Hsecs). cbn [negb bind].
    destruct (format_article_sections_total _ H) as [listing ->].
    now eexists.
  - destruct (Py.truthy (JObj fields)); now eexists.
Qed.

Lemma get_wikipedia_links_total title limit :
  Shape.links
    (fetch net WIKIPEDIA_SEARCH_API (Some (links_params title limit))) = true ->
  exists text, run (get_wikipedia_links title limit) net = Ok text.
Proof.
  intros H. unfold get_wikipedia_links. rewrite run_after_gateway.
  set (data := fetch net WIKIPEDIA_SEARCH_API _) in *.
  apply action_shape_cases in H as [Hstop|[v [Hdig Hv]]].
  - rewrite Hstop. now eexists.
  - apply guard_passes in Hdig as [Hguard Hread].
    rewrite Hguard. cbn [bind]. unfold bind at 1 in Hread.
    destruct (Py.getitem data "query") as [q|]; [|discriminate].
    cbn [bind]. rewrite Hread.
    destruct v as [| | | | | |[|[page_id [| | | | | |page]] others]];
      try discriminate.
    cbn [bind Py.values Py.next_iter map snd].
    unfold Shape.first_page, Shape.optional in Hv.
    unfold Py.not_in, Py.contains, Py.dict_has, Py.getitem at 1.
    destruct (Py.dict_get "links" page) as [entries|]; [|now eexists].
    cbn [bind negb].
    destruct entries as [| | | | |entries|]; try discriminate.
    cbn [Py.iter bind].
    destruct (for_each_shaped (fun link => Py.getitem link "title")
                (Shape.obj_with (Py.dict_has "title")) entries) as [links ->];
      [|exact Hv|now eexists].
    intros [| | | | | |fields]; try discriminate.
    unfold Shape.obj_with, Py.dict_has, Py.getitem.
    destruct (Py.dict_get "title" fields); [now eexists|discriminate].
Qed.

Lemma get_related_topics_total title limit :
  Shape.topics
    (fetch net WIKIPEDIA_SEARCH_API (Some (categories_params title))) = true ->
  exists text, run (get_related_topics title limit) net = Ok text.
Proof.
  intros H. unfold get_related_topics. rewrite run_after_gateway.
  set (data := fetch net WIKIPEDIA_SEARCH_API _) in *.
  apply action_shape_cases in H as [Hstop|[v [Hdig Hv]]].
  - rewrite Hstop. now eexists.
  - apply guard_passes in Hdig as [Hguard Hread].
    rewrite Hguard. cbn [bind]. unfold bind at 1 in Hread.
    destruct (Py.getitem data "query") as [q|]; [|discriminate].
    cbn [bind]. rewrite Hread.
    destruct v as [| | | | | |[|[page_id [| | | | | |page]] others]];
      try discriminate.
    cbn [bind Py.values Py.next_iter map snd].
    unfold Shape.first_page, Shape.optional in Hv.
    unfold Py.not_in, Py.contains, Py.dict_has, Py.getitem at 1.
    destruct (Py.dict_get "categories" page) as [entries|]; [|now eexists].
    cbn [bind negb].
    destruct entries as [| | | | |entries|]; try discriminate.
    cbn [Py.iter bind].
    destruct (for_each_shaped
                (fun cat => t <- Py.getitem cat "title" ;;
                            Py.replace t "Category:" "")
                (Shape.obj_with (Shape.required "title" Shape.is_str))
                entries) as [topics ->];
      [|exact Hv|now eexists].
    intros [| | | | | |fields]; try discriminate.
    unfold Shape.obj_with, Shape.required, Shape.is_str, Py.getitem.
    destruct (Py.dict_get "title" fields) as [[| | | |t| |]|];
      try discriminate.
    now eexists.
Qed.

End ShapeFacts.

(** C2, as the code has it.  Each of the six tool operations returns a
    string, and raises nothing, whenever the payloads it receives are
    absent or have the shape it reads: mappings where it looks fields up,
    lists where it loops, string titles and snippets where it rewrites
    them, and, for links and related topics, a non-empty [pages] mapping
    whose entries all carry a title. *)
Theorem tools_return_text_on_expected_shapes (net : network)
    (query title : string) (limit : Z) :
  Shape.search
    (fetch net WIKIPEDIA_SEARCH_API (Some (search_params query limit))) = true ->
  Shape.summary (fetch net (summary_url title) None) = true ->
  Shape.sections (fetch net (sections_url title) None) = true ->
  Shape.links
    (fetch net WIKIPEDIA_SEARCH_API (Some (links_params title limit))) = true ->
  Shape.topics
    (fetch net WIKIPEDIA_SEARCH_API (Some (categories_params title))) = true ->
  (exists text, run (search_wikipedia query limit) net = Ok text) /\
  (exists text, run (get_wikipedia_article title) net = Ok text) /\
  (exists text, run (get_wikipedia_summary title) net = Ok text) /\
  (exists text, run (get_wikipedia_sections title) net = Ok text) /\
  (exists text, run (get_wikipedia_links title limit) net = Ok text) /\
  (exists text, run (get_related_topics title limit) net = Ok text).
Proof.
  intros Hsearch Hsummary Hsections Hlinks Htopics.
  repeat split.
  - now apply search_wikipedia_total.
  - now apply get_wikipedia_article_total.
  - now apply get_wikipedia_summary_total.
  - now apply get_wikipedia_sections_total.
  - now apply get_wikipedia_links_total.
  - now apply get_related_topics_total.
Qed.

Lemma tools_return_text_on_expected_shapes_witness :
  (exists text, run (search_wikipedia "Test" 10) Sample.wiki_net = Ok text) /\
  (exists text, run (get_wikipedia_article "Cat") Sample.wiki_net = Ok text) /\
  (exists text, run (get_wikipedia_summary "Cat") Sample.wiki_net = Ok text) /\
  (exists text, run (get_wikipedia_sections "Cat") Sample.wiki_net = Ok text) /\
  (exists text, run (get_wikipedia_links "Cat" 10) Sample.wiki_net = Ok text) /\
  (exists text, run (get_related_topics "Cat" 10) Sample.wiki_net = Ok text).
Proof.
  exact (tools_return_text_on_expected_shapes Sample.wiki_net "Test" "Cat" 10
           eq_refl eq_refl eq_refl eq_refl eq_refl).
Defined.

Example wiki_net_links :
  run (get_wikipedia_links "Cat" 10) Sample.wiki_net =
    Ok ("Links in 'Cat' (showing 2 links):" ++ Text.nl ++
        "- Felidae" ++ Text.nl ++ "- Kitten").
Proof. reflexivity. Qed.

(** C2, as stated, fails: an operation raises on a field of another type
    than the one it reads, on an empty [pages] mapping, and on a link or
    category entry without a title. *)
Lemma tools_raise_on_unexpected_payloads :
  run (get_wikipedia_summary "Cat") Sample.null_urls_net = Raise AttributeError /\
  run (get_wikipedia_links "Cat" 20) Sample.no_pages_net = Raise RuntimeError /\
  run (get_related_topics "Cat" 10) Sample.no_pages_net = Raise RuntimeError /\
  run (get_wikipedia_links "Cat" 20) Sample.untitled_entry_net = Raise KeyError /\
  run (get_related_topics "Cat" 10) Sample.untitled_entry_net = Raise KeyError /\
  ~ (exists text,
       run (get_wikipedia_links "Cat" 20) Sample.no_pages_net = Ok text).
Proof.
  repeat split. intros [text H]. discriminate H.
Qed.


(** ** Search results *)

(** C4.  When the payload carries [query.search] as a list of search
    results (mappings whose title and snippet are strings or missing): an
    empty list gives the no-results message, which differs from the
    request-failure message; a list of N hits gives
    [Found N Wikipedia articles:], a blank line, and the formatted hits in
    order with a line of three dashes between two neighbours. *)
Theorem search_wikipedia_lists_hits (net : network) (query : string)
    (limit : Z) (hits : list json) :
  dig "query" "search"
      (fetch net WIKIPEDIA_SEARCH_API (Some (search_params query limit))) =
    Some (JArr hits) ->
  forallb (Shape.obj_with Shape.hit) hits = true ->
  (hits = [] ->
   run (search_wikipedia query limit) net =
     Ok ("No Wikipedia articles found for query: '" ++ query ++ "'")) /\
  (hits <> [] ->
   exists entries,
     Forall2 (fun hit entry => format_search_result hit = Ok entry)
       hits entries /\
     read_count (Text.of_nat (List.length hits)) = Some (List.length hits) /\
     run (search_wikipedia query limit) net =
       Ok ("Found " ++ Text.of_nat (List.length hits) ++
           " Wikipedia articles:" ++ Text.nl ++ Text.nl ++
           separated (Text.nl ++ "---" ++ Text.nl) entries)) /\
  "No Wikipedia articles found for query: '" ++ query ++ "'" <>
    "Unable to search Wikipedia or no results found.".
Proof.
  intros Hdig Hshape. apply guard_passes in Hdig as [Hguard Hread].
  unfold search_wikipedia. rewrite run_after_gateway.
  set (data := fetch net WIKIPEDIA_SEARCH_API _) in *.
  rewrite Hguard. cbn [bind].
  unfold bind at 1 in Hread.
  destruct (Py.getitem data "query") as [q|]; [|discriminate].
  cbn [bind]. rewrite Hread. cbn [bind].
  split; [|split].
  - intros ->. reflexivity.
  - intros Hne. destruct hits as [|h hits]; [congruence|].
    assert (Hentries : exists entries,
               Forall2 (fun hit entry => format_search_result hit = Ok entry)
                 (h :: hits) entries).
    { clear - Hshape. revert Hshape. generalize (h :: hits) as items.
      induction items as [|item items IH]; cbn [forallb]; intros H.
      - exists []. constructor.
      - apply andb_true_iff in H as [Hitem Hitems].
        destruct (IH Hitems) as [rest Hrest].
        destruct (format_search_result_total item Hitem) as [entry Hentry].
        exists (entry :: rest). now constructor. }
    destruct Hentries as [entries Hentries].
    exists entries.
    split; [exact Hentries|]. split; [apply of_nat_reads_back|].
    change (Py.truthy (JArr (h :: hits))) with true. cbn [negb Py.iter bind].
    rewrite (for_each_Forall2 _ _ _ Hentries). cbn [bind surfaced].
    now rewrite (Forall2_length Hentries), join_separated.
  - discriminate.
Qed.

Lemma search_wikipedia_lists_hits_witness :
  run (search_wikipedia "Test" 10) Sample.search_net =
    Ok ("Found 2 Wikipedia articles:" ++ Text.nl ++ Text.nl ++
        "Title: Test" ++ Text.nl ++
        "Description: A test is a procedure" ++ Text.nl ++
        "URL: https://en.wikipedia.org/wiki/Test" ++ Text.nl ++
        "---" ++ Text.nl ++
        "Title: Test cricket" ++ Text.nl ++
        "Description: The longest form of cricket" ++ Text.nl ++
        "URL: https://en.wikipedia.org/wiki/Test_cricket").
Proof.
  destruct (proj1 (proj2 (search_wikipedia_lists_hits Sample.search_net "Test"
                            10 Sample.two_hits eq_refl eq_refl)))
    as [entries [Hentries [_ Hrun]]]; [discriminate|].
  pose proof (for_each_Forall2 _ _ _ Hentries) as Hloop.
  assert (Hlist :
            Ok entries =
            Ok ["Title: Test" ++ Text.nl ++
                "Description: A test is a procedure" ++ Text.nl ++
                "URL: https://en.wikipedia.org/wiki/Test";
                "Title: Test cricket" ++ Text.nl ++
                "Description: The longest form of cricket" ++ Text.nl ++
                "URL: https://en.wikipedia.org/wiki/Test_cricket"])
    by (rewrite <- Hloop; reflexivity).
  inversion Hlist; subst entries. exact Hrun.
Defined.


(** * Further properties of the program *)

(** ** More facts about text and loops *)

Lemma prefix_nil (s : string) : String.prefix "" s = true.
Proof. destruct s; reflexivity. Qed.

Lemma contains_char_cons (c d : ascii) (s : string) :
  Text.contains (String c "") (String d s) =
  Ascii.eqb c d || Text.contains (String c "") s.
Proof.
  cbn [Text.contains String.prefix].
  destruct (ascii_dec c d) as [->|Hne].
  - now rewrite prefix_nil, Ascii.eqb_refl.
  - apply Ascii.eqb_neq in Hne. now rewrite Hne.
Qed.

Lemma contains_char_app (c : ascii) (a b : string) :
  Text.contains (String c "") (a ++ b) =
  Text.contains (String c "") a || Text.contains (String c "") b.
Proof.
  induction a as [|d a IH]; [reflexivity|].
  change (String d a ++ b) with (String d (a ++ b)).
  rewrite !contains_char_cons, IH. apply orb_assoc.
Qed.

Lemma underscored_has_no_space (s : string) :
  Text.contains " " (spaces_to_underscores s) = false.
Proof.
  induction s as [|c s IH]; [reflexivity|].
  cbn [spaces_to_underscores]. rewrite contains_char_cons, IH.
  destruct (Ascii.eqb_spec c " "%char) as [->|Hne]; [reflexivity|].
  rewrite orb_false_r. apply Ascii.eqb_neq. congruence.
Qed.

Lemma underscored_length (s : string) :
  String.length (spaces_to_underscores s) = String.length s.
Proof. induction s; cbn; congruence. Qed.

(** A loop whose body can fail only with [e] fails with [e] as soon as one
    item makes it fail. *)
Lemma for_each_raises {A B : Type} (f : A -> result B) (e : exn)
    (items : list A) :
  (forall x, In x items -> (exists y, f x = Ok y) \/ f x = Raise e) ->
  (exists x, In x items /\ f x = Raise e) ->
  for_each f items = Raise e.
Proof.
  induction items as [|x items IH]; intros Hall [bad [Hin Hbad]].
  - destruct Hin.
  - cbn. destruct (Hall x (or_introl eq_refl)) as [[y Hy]|Hx].
    + rewrite Hy. cbn.
      rewrite IH; [reflexivity| |].
      * intros z Hz. apply Hall. now right.
      * destruct Hin as [->|Hin]; [congruence|]. now exists bad.
    + now rewrite Hx.
Qed.

Section RequestFacts.

Variable net : network.

Lemma get_wikipedia_summary_sent title :
  sent (get_wikipedia_summary title) net =
  [gateway_request (summary_url title) None].
Proof.
  unfold get_wikipedia_summary, sent, coroutine, abind.
  rewrite make_wikipedia_request_spec.
  destruct (negb (Py.truthy (fetch net (summary_url title) None)));
    [reflexivity|].
  unfold lift. destruct (format_article_summary _) as [a|[]]; reflexivity.
Qed.

Lemma get_wikipedia_article_sent title :
  Py.truthy (fetch net (summary_url title) None) = true ->
  sent (get_wikipedia_article title) net =
  [gateway_request (summary_url title) None;
   gateway_request (sections_url title) None].
Proof.
  intros H.
  unfold get_wikipedia_article, sent, coroutine, abind.
  rewrite make_wikipedia_request_spec, H. cbn [negb].
  rewrite make_wikipedia_request_spec. unfold lift.
  match goal with |- snd (match ?r with Ok _ => _ | Raise _ => _ end) = _ =>
    destruct r as [a|[]] end; reflexivity.
Qed.

End RequestFacts.

(** ** The gateway client *)

(** X1.  [make_wikipedia_request] never raises and sends exactly one
    request, with the two fixed headers: it returns [None] when the
    exchange fails and the decoded body when a 2xx response carries JSON. *)
Theorem gateway_returns_body_or_none (net : network) (url : string)
    (params : option (list (string * json))) (log : list request) :
  let req := gateway_request url params in
  exists payload,
    make_wikipedia_request url params net log =
      (Ok payload, (log ++ [req])%list) /\
    req_headers req =
      [("User-Agent", "wikipedia-mcp/1.0"); ("Accept", "application/json")] /\
    (reply_fails (net req) = true -> payload = JNull) /\
    (forall status body,
       net req = Responds status (Some body) ->
       (200 <= status <= 299)%Z -> payload = body).
Proof.
  intros req. exists (fetch net url params). repeat split.
  - apply make_wikipedia_request_spec.
  - apply fetch_failed.
  - intros status body Hreply Hstatus. unfold fetch. fold req.
    rewrite Hreply.
    destruct (Z.leb_spec 200 status); [|lia].
    destruct (Z.leb_spec status 299); [|lia].
    reflexivity.
Qed.

Lemma gateway_returns_body_or_none_witness :
  make_wikipedia_request (summary_url "Cat") None Sample.wiki_net [] =
    (Ok (JObj Sample.cat_summary), [gateway_request (summary_url "Cat") None]) /\
  make_wikipedia_request (summary_url "Cat") None Sample.failing_net [] =
    (Ok JNull, [gateway_request (summary_url "Cat") None]).
Proof.
  split.
  - destruct (gateway_returns_body_or_none Sample.wiki_net (summary_url "Cat")
                None []) as [payload [Hrun [_ [_ Hbody]]]].
    rewrite Hrun.
    rewrite (Hbody 200%Z (JObj Sample.cat_summary) eq_refl); [reflexivity|lia].
  - destruct (gateway_returns_body_or_none Sample.failing_net
                (summary_url "Cat") None []) as [payload [Hrun [_ [Hfail _]]]].
    rewrite Hrun. now rewrite (Hfail eq_refl).
Defined.

(** ** The requests of the REST operations *)

(** X2.  The summary and the sections operation send one request each; the
    article operation sends the summary request and then, when the summary
    payload is not empty, the sections request.  The URLs never contain a
    space, and a title without spaces is put in the path unchanged. *)
Theorem rest_requests_have_no_space (net : network) (title : string) :
  sent (get_wikipedia_summary title) net =
    [gateway_request (summary_url title) None] /\
  sent (get_wikipedia_sections title) net =
    [gateway_request (sections_url title) None] /\
  (Py.truthy (fetch net (summary_url title) None) = true ->
   sent (get_wikipedia_article title) net =
     [gateway_request (summary_url title) None;
      gateway_request (sections_url title) None]) /\
  Text.contains " " (summary_url title) = false /\
  Text.contains " " (sections_url title) = false /\
  (Text.contains " " title = false ->
   summary_url title = WIKIPEDIA_API_BASE ++ "/page/summary/" ++ title /\
   sections_url title = WIKIPEDIA_API_BASE ++ "/page/sections/" ++ title).
Proof.
  repeat split.
  - apply get_wikipedia_summary_sent.
  - unfold get_wikipedia_sections. now rewrite sent_after_gateway.
  - apply get_wikipedia_article_sent.
  - unfold summary_url.
    rewrite !contains_char_app, replace_spaces, underscored_has_no_space.
    reflexivity.
  - unfold sections_url.
    rewrite !contains_char_app, replace_spaces, underscored_has_no_space.
    reflexivity.
  - unfold summary_url. rewrite replace_absent; [reflexivity|discriminate|assumption].
  - unfold sections_url. rewrite replace_absent; [reflexivity|discriminate|assumption].
Qed.

Lemma rest_requests_have_no_space_witness :
  sent (get_wikipedia_article "Maine Coon") Sample.wiki_net =
    [gateway_request
       "https://en.wikipedia.org/api/rest_v1/page/summary/Maine_Coon" None;
     gateway_request
       "https://en.wikipedia.org/api/rest_v1/page/sections/Maine_Coon" None] /\
  summary_url "Cat" = "https://en.wikipedia.org/api/rest_v1/page/summary/Cat".
Proof.
  pose proof (rest_requests_have_no_space Sample.wiki_net "Maine Coon")
    as [_ [_ [Harticle _]]].
  pose proof (rest_requests_have_no_space Sample.wiki_net "Cat")
    as [_ [_ [_ [_ [_ Hplain]]]]].
  split.
  - exact (Harticle eq_refl).
  - exact (proj1 (Hplain eq_refl)).
Defined.

(** ** Article and summary *)

(** X3.  The article operation extends the summary operation: whenever it
    returns a text on a non-empty summary payload, the summary operation
    returns a text as well, and the article text is that text, alone or
    followed by the [Sections:] block.  On an empty or absent summary
    payload both return their own fallback. *)
Theorem article_extends_summary (net : network) (title text : string) :
  run (get_wikipedia_article title) net = Ok text ->
  (Py.truthy (fetch net (summary_url title) None) = false /\
   text = "Unable to fetch Wikipedia article '" ++ title ++
          "'. Article may not exist." /\
   run (get_wikipedia_summary title) net =
     Ok ("Unable to fetch summary for Wikipedia article '" ++ title ++ "'.")) \/
  (exists info,
     run (get_wikipedia_summary title) net = Ok info /\
     (text = info \/
      exists listing,
        text = info ++ Text.nl ++ Text.nl ++ "Sections:" ++ Text.nl ++ listing)).
Proof.
  intros Hrun. rewrite get_wikipedia_summary_run. cbv zeta.
  destruct (Py.truthy (fetch net (summary_url title) None)) eqn:Htruthy.
  - right. rewrite (get_wikipedia_article_run _ _ Htruthy) in Hrun.
    cbv zeta in Hrun. cbn [negb].
    destruct (format_article_summary (fetch net (summary_url title) None))
      as [info|e]; [|destruct e; discriminate].
    exists info. split; [reflexivity|]. cbn [bind] in Hrun.
    destruct (Py.truthy (fetch net (sections_url title) None)).
    + destruct (Py.get (fetch net (sections_url title) None) "sections" JNull)
        as [s|e]; [|destruct e; discriminate].
      cbn [bind] in Hrun. destruct (Py.truthy s).
      * destruct (Py.getitem (fetch net (sections_url title) None) "sections")
          as [secs|e]; [|destruct e; discriminate].
        cbn [bind] in Hrun.
        destruct (format_article_sections secs) as [listing|e];
          [|destruct e; discriminate].
        right. exists listing. now inversion Hrun.
      * left. now inversion Hrun.
    + left. now inversion Hrun.
  - left. destruct (get_wikipedia_article_gate net title Htruthy) as [Hgate _].
    rewrite Hgate in Hrun. inversion Hrun. repeat split.
Qed.

Lemma article_extends_summary_witness :
  exists info,
    run (get_wikipedia_summary "Cat") Sample.wiki_net = Ok info /\
    (Ok ("Title: Cat" ++ Text.nl ++
         "Summary: The cat is a small domesticated carnivorous mammal." ++
         Text.nl ++
         "URL: https://en.wikipedia.org/wiki/Cat" ++ Text.nl ++ Text.nl ++
         "Sections:" ++ Text.nl ++ "- Etymology" ++ Text.nl ++ "- Taxonomy") =
     Ok (info ++ Text.nl ++ Text.nl ++ "Sections:" ++ Text.nl ++
         "- Etymology" ++ Text.nl ++ "- Taxonomy")).
Proof.
  destruct (article_extends_summary Sample.wiki_net "Cat" _ eq_refl)
    as [[Hempty _]|[info [Hsummary _]]]; [discriminate Hempty|].
  exists info. split; [exact Hsummary|].
  assert (Hinfo : Ok info =
                  run (get_wikipedia_summary "Cat") Sample.wiki_net)
    by (symmetry; exact Hsummary).
  inversion Hinfo. reflexivity.
Defined.

(** ** Links and related topics: the page that is read *)

(** Once the presence test has let the payload through, the body reads
    [data["query"]["pages"]]. *)
Ltac read_pages H :=
  let Hguard := fresh "Hguard" in
  let Hread := fresh "Hread" in
  apply guard_passes in H as [Hguard Hread];
  rewrite Hguard; cbn [bind];
  unfold bind at 1 in Hread;
  match type of Hread with
  | match ?g with Ok _ => _ | Raise _ => _ end = _ =>
      destruct g; [|discriminate Hread]
  end;
  cbn [bind]; rewrite Hread;
  cbn [bind Py.values Py.next_iter map snd].

Lemma forallb_false_exists {A : Type} (p : A -> bool) (items : list A) :
  forallb p items = false -> exists x, In x items /\ p x = false.
Proof.
  induction items as [|x items IH]; [discriminate|].
  cbn. destruct (p x) eqn:Hx.
  - intros H. destruct (IH H) as [y [Hin Hy]]. exists y. auto.
  - intros _. exists x. auto.
Qed.

Lemma for_each_entries {B : Type} (f : json -> result B) (g : string -> B)
    (entries : list json) (titles : list string) :
  (forall entry t, titled entry t -> f entry = Ok (g t)) ->
  Forall2 titled entries titles ->
  for_each f entries = Ok (map g titles).
Proof.
  intros Hf H. apply for_each_Forall2.
  induction H as [|entry t entries titles Ht _ IH]; cbn; constructor; auto.
Qed.

(** X4.  Links and related topics read the first page of [query.pages]
    only: two responses whose first pages are equal give the same result,
    whatever the page ids and the other pages are. *)
Theorem only_first_page_is_read (net1 net2 : network) (title : string)
    (limit : Z) (id1 id2 : string) (page : json)
    (others1 others2 : list (string * json)) :
  (dig "query" "pages"
       (fetch net1 WIKIPEDIA_SEARCH_API (Some (links_params title limit))) =
     Some (JObj ((id1, page) :: others1)) ->
   dig "query" "pages"
       (fetch net2 WIKIPEDIA_SEARCH_API (Some (links_params title limit))) =
     Some (JObj ((id2, page) :: others2)) ->
   run (get_wikipedia_links title limit) net1 =
   run (get_wikipedia_links title limit) net2) /\
  (dig "query" "pages"
       (fetch net1 WIKIPEDIA_SEARCH_API (Some (categories_params title))) =
     Some (JObj ((id1, page) :: others1)) ->
   dig "query" "pages"
       (fetch net2 WIKIPEDIA_SEARCH_API (Some (categories_params title))) =
     Some (JObj ((id2, page) :: others2)) ->
   run (get_related_topics title limit) net1 =
   run (get_related_topics title limit) net2).
Proof.
  split; intros H1 H2.
  - unfold get_wikipedia_links. rewrite !run_after_gateway.
    read_pages H1. read_pages H2. reflexivity.
  - unfold get_related_topics. rewrite !run_after_gateway.
    read_pages H1. read_pages H2. reflexivity.
Qed.

Lemma only_first_page_is_read_witness :
  run (get_wikipedia_links "Cat" 10) Sample.wiki_net =
  run (get_wikipedia_links "Cat" 10) Sample.two_pages_net.
Proof.
  exact (proj1 (only_first_page_is_read Sample.wiki_net Sample.two_pages_net
                  "Cat" 10 "6678" "6678" (JObj Sample.cat_links_page) []
                  [("4269567", JObj [("title", JStr "Dog")])])
           eq_refl eq_refl).
Defined.

(** X5.  When the first page is a mapping, the links operation answers
    [No links found] if the page has no [links] key, and otherwise lists
    the title of every entry of the response: the number it shows is the
    number of entries, and the caller's limit plays no part in the
    output. *)
Theorem get_wikipedia_links_lists_every_link (net : network) (title : string)
    (limit : Z) (page_id : string) (page : list (string * json))
    (other_pages : list (string * json)) :
  dig "query" "pages"
      (fetch net WIKIPEDIA_SEARCH_API (Some (links_params title limit))) =
    Some (JObj ((page_id, JObj page) :: other_pages)) ->
  (Py.dict_get "links" page = None ->
   run (get_wikipedia_links title limit) net =
     Ok ("No links found in Wikipedia article '" ++ title ++ "'.")) /\
  (forall entries titles,
     Py.dict_get "links" page = Some (JArr entries) ->
     Forall2 titled entries titles ->
     run (get_wikipedia_links title limit) net =
       Ok ("Links in '" ++ title ++ "' (showing " ++
           Text.of_nat (List.length entries) ++ " links):" ++ Text.nl ++
           Text.join Text.nl (map (fun t => "- " ++ t) titles))).
Proof.
  intros Hdig. unfold get_wikipedia_links. rewrite run_after_gateway.
  read_pages Hdig.
  unfold Py.not_in, Py.contains, Py.dict_has, Py.getitem.
  split.
  - intros ->. reflexivity.
  - intros entries titles -> Htitles. cbn [bind negb Py.iter].
    rewrite (for_each_entries _ JStr entries titles); [| |exact Htitles].
    + cbn [bind surfaced]. rewrite !length_map, map_map.
      now rewrite (Forall2_length Htitles).
    + intros entry t [fields [-> Ht]]. now rewrite Ht.
Qed.

Lemma get_wikipedia_links_lists_every_link_witness :
  run (get_wikipedia_links "Cat" 1) Sample.wiki_net =
    Ok ("Links in 'Cat' (showing 2 links):" ++ Text.nl ++
        "- Felidae" ++ Text.nl ++ "- Kitten").
Proof.
  refine (proj2 (get_wikipedia_links_lists_every_link Sample.wiki_net "Cat" 1
                   "6678" Sample.cat_links_page [] eq_refl)
            _ ["Felidae"; "Kitten"] eq_refl _).
  repeat constructor; eexists; split; reflexivity.
Defined.

(** X6.  On a response whose [query.pages] mapping is empty, the links
    and the related-topics operation raise: the [StopIteration] of
    [next(iter(...))] leaves the coroutine as a [RuntimeError]. *)
Theorem empty_pages_raise (net : network) (title : string) (limit : Z) :
  (dig "query" "pages"
       (fetch net WIKIPEDIA_SEARCH_API (Some (links_params title limit))) =
     Some (JObj []) ->
   run (get_wikipedia_links title limit) net = Raise RuntimeError) /\
  (dig "query" "pages"
       (fetch net WIKIPEDIA_SEARCH_API (Some (categories_params title))) =
     Some (JObj []) ->
   run (get_related_topics title limit) net = Raise RuntimeError).
Proof.
  split; intros H.
  - unfold get_wikipedia_links. rewrite run_after_gateway.
    read_pages H. reflexivity.
  - unfold get_related_topics. rewrite run_after_gateway.
    read_pages H. reflexivity.
Qed.

Lemma empty_pages_raise_witness :
  run (get_wikipedia_links "Cat" 20) Sample.no_pages_net = Raise RuntimeError /\
  run (get_related_topics "Cat" 10) Sample.no_pages_net = Raise RuntimeError.
Proof.
  split.
  - exact (proj1 (empty_pages_raise Sample.no_pages_net "Cat" 20) eq_refl).
  - exact (proj2 (empty_pages_raise Sample.no_pages_net "Cat" 10) eq_refl).
Defined.

(** X7.  When the links of the first page are mappings and one of them has
    no [title] key, the links operation raises [KeyError]: no partial list
    is returned. *)
Theorem untitled_link_raises (net : network) (title : string) (limit : Z)
    (page_id : string) (page : list (string * json))
    (other_pages : list (string * json)) (entries : list json) :
  dig "query" "pages"
      (fetch net WIKIPEDIA_SEARCH_API (Some (links_params title limit))) =
    Some (JObj ((page_id, JObj page) :: other_pages)) ->
  Py.dict_get "links" page = Some (JArr entries) ->
  forallb Shape.is_obj entries = true ->
  forallb (Shape.obj_with (Py.dict_has "title")) entries = false ->
  run (get_wikipedia_links title limit) net = Raise KeyError.
Proof.
  intros Hdig Hlinks Hobj Huntitled.
  unfold get_wikipedia_links. rewrite run_after_gateway.
  read_pages Hdig.
  unfold Py.not_in, Py.contains, Py.dict_has, Py.getitem at 1.
  rewrite Hlinks. cbn [bind negb Py.iter].
  rewrite (for_each_raises _ KeyError); [reflexivity| |].
  - intros entry Hin.
    pose proof (proj1 (forallb_forall _ _) Hobj entry Hin) as Hentry.
    destruct entry as [| | | | | |fields]; try discriminate.
    unfold Py.getitem. destruct (Py.dict_get "title" fields) as [t|].
    + left. now exists t.
    + now right.
  - destruct (forallb_false_exists _ _ Huntitled) as [entry [Hin Hentry]].
    exists entry. split; [exact Hin|].
    pose proof (proj1 (forallb_forall _ _) Hobj entry Hin) as Hmap.
    destruct entry as [| | | | | |fields]; try discriminate.
    unfold Shape.obj_with, Py.dict_has in Hentry. unfold Py.getitem.
    destruct (Py.dict_get "title" fields); [discriminate|reflexivity].
Qed.

Lemma untitled_link_raises_witness :
  run (get_wikipedia_links "Cat" 20) Sample.untitled_entry_net = Raise KeyError.
Proof.
  exact (untitled_link_raises Sample.untitled_entry_net "Cat" 20 "6678" _ []
           [JObj [("ns", JInt 0)]] eq_refl eq_refl eq_refl eq_refl).
Defined.

(** ** Related topics: the limit *)

Lemma get_related_topics_run (net : network) (title : string) (limit : Z)
    (page_id : string) (page : list (string * json))
    (other_pages : list (string * json)) (entries : list json)
    (titles : list string) :
  dig "query" "pages"
      (fetch net WIKIPEDIA_SEARCH_API (Some (categories_params title))) =
    Some (JObj ((page_id, JObj page) :: other_pages)) ->
  Py.dict_get "categories" page = Some (JArr entries) ->
  Forall2 titled entries titles ->
  run (get_related_topics title limit) net =
    Ok ("Topics related to '" ++ title ++ "':" ++ Text.nl ++
        Text.join Text.nl
          (map (fun topic => "- " ++ topic)
             (Py.slice_upto (map (Text.replace "Category:" "") titles) limit))).
Proof.
  intros Hdig Hcat Htitles.
  unfold get_related_topics. rewrite run_after_gateway.
  read_pages Hdig.
  unfold Py.not_in, Py.contains, Py.dict_has, Py.getitem.
  rewrite Hcat. cbn [bind negb Py.iter].
  rewrite (for_each_entries _ (Text.replace "Category:" "") entries titles);
    [reflexivity| |exact Htitles].
  intros entry t [fields [-> Ht]]. now rewrite Ht.
Qed.

(** X8.  The related-topics operation answers [No categories found] when
    the first page has no [categories] key.  Otherwise the limit acts as
    the slice bound of Python: a limit that is at least the number of
    categories shows them all, the limit 0 shows none (the header stands
    alone), and a negative limit [-k] drops the last [k] topics instead of
    being rejected. *)
Theorem get_related_topics_limits (net : network) (title : string) (limit : Z)
    (page_id : string) (page : list (string * json))
    (other_pages : list (string * json)) :
  dig "query" "pages"
      (fetch net WIKIPEDIA_SEARCH_API (Some (categories_params title))) =
    Some (JObj ((page_id, JObj page) :: other_pages)) ->
  let shown (topics : list string) :=
    Ok ("Topics related to '" ++ title ++ "':" ++ Text.nl ++
        Text.join Text.nl (map (fun topic => "- " ++ topic) topics)) in
  (Py.dict_get "categories" page = None ->
   run (get_related_topics title limit) net =
     Ok ("No categories found for Wikipedia article '" ++ title ++ "'.")) /\
  (forall entries titles,
     Py.dict_get "categories" page = Some (JArr entries) ->
     Forall2 titled entries titles ->
     let topics := map (Text.replace "Category:" "") titles in
     ((Z.of_nat (List.length titles) <= limit)%Z ->
      run (get_related_topics title limit) net = shown topics) /\
     (limit = 0%Z -> run (get_related_topics title limit) net = shown []) /\
     ((limit < 0)%Z ->
      run (get_related_topics title limit) net =
        shown (firstn (List.length titles - Z.to_nat (- limit)) topics))).
Proof.
  intros Hdig shown. split.
  - intros Hnone. unfold get_related_topics. rewrite run_after_gateway.
    read_pages Hdig.
    unfold Py.not_in, Py.contains, Py.dict_has, Py.getitem.
    now rewrite Hnone.
  - intros entries titles Hcat Htitles topics.
    rewrite (get_related_topics_run _ _ _ _ _ _ _ _ Hdig Hcat Htitles).
    fold topics. unfold shown, Py.slice_upto.
    assert (Hlen : List.length topics = List.length titles)
      by (unfold topics; apply length_map).
    repeat split.
    + intros Hlimit. destruct (Z.leb_spec 0 limit); [|lia].
      rewrite firstn_all2; [reflexivity|lia].
    + intros ->. reflexivity.
    + intros Hneg. destruct (Z.leb_spec 0 limit); [lia|].
      now rewrite Hlen.
Qed.

Lemma get_related_topics_limits_witness :
  run (get_related_topics "Cat" 20) Sample.wiki_net =
    Ok ("Topics related to 'Cat':" ++ Text.nl ++
        "- Felines" ++ Text.nl ++ "- Cats" ++ Text.nl ++ "- Pets") /\
  run (get_related_topics "Cat" 0) Sample.wiki_net =
    Ok ("Topics related to 'Cat':" ++ Text.nl) /\
  run (get_related_topics "Cat" (-1)) Sample.wiki_net =
    Ok ("Topics related to 'Cat':" ++ Text.nl ++
        "- Felines" ++ Text.nl ++ "- Cats").
Proof.
  assert (Htitles :
            Forall2 titled
              [Sample.entry "Category:Felines"; Sample.entry "Category:Cats";
               Sample.entry "Category:Pets"]
              ["Category:Felines"; "Category:Cats"; "Category:Pets"])
    by (repeat constructor; eexists; split; reflexivity).
  split; [|split].
  - refine (proj1 (proj2 (get_related_topics_limits Sample.wiki_net "Cat" 20
                            "6678" _ [] eq_refl) _ _ eq_refl Htitles) _).
    cbn. lia.
  - exact (proj1 (proj2 (proj2 (get_related_topics_limits Sample.wiki_net "Cat"
                                  0 "6678" _ [] eq_refl) _ _ eq_refl Htitles))
             eq_refl).
  - exact (proj2 (proj2 (proj2 (get_related_topics_limits Sample.wiki_net "Cat"
                                  (-1) "6678" _ [] eq_refl) _ _ eq_refl Htitles))
             eq_refl).
Defined.

(** ** When the formatters fail *)

Lemma format_search_result_cases (v : json) :
  (Shape.obj_with Shape.hit v = true /\
   exists text, format_search_result v = Ok text) \/
  (Shape.obj_with Shape.hit v = false /\
   format_search_result v = Raise AttributeError).
Proof.
  destruct (Shape.obj_with Shape.hit v) eqn:Hshape.
  - left. split; [reflexivity|now apply format_search_result_total].
  - right. split; [reflexivity|].
    destruct v as [| | | | | |fields]; try reflexivity.
    unfold Shape.obj_with, Shape.hit, Shape.optional, Shape.is_str in Hshape.
    unfold format_search_result, Py.get.
    destruct (Py.dict_get "title" fields) as [[| | | |t| |]|];
      destruct (Py.dict_get "snippet" fields) as [[| | | |s| |]|];
      try discriminate; reflexivity.
Qed.

Lemma format_article_sections_cases (items : list json) :
  (forallb Shape.is_obj (firstn 10 items) = true /\
   exists text, format_article_sections (JArr items) = Ok text) \/
  (forallb Shape.is_obj (firstn 10 items) = false /\
   format_article_sections (JArr items) = Raise AttributeError).
Proof.
  assert (Hbody : forall section,
            (exists line,
               (line <- Py.get section "line" (JStr "Unknown Section") ;;
                Ok ("- " ++ Py.str line)) = Ok line) \/
            (Shape.is_obj section = false /\
             (line <- Py.get section "line" (JStr "Unknown Section") ;;
              Ok ("- " ++ Py.str line)) = Raise AttributeError)).
  { intros [| | | | | |fields]; try (right; split; reflexivity).
    left. unfold Py.get. destruct (Py.dict_get "line" fields); eexists;
      reflexivity. }
  destruct items as [|first others].
  { left. split; [reflexivity|now eexists]. }
  unfold format_article_sections.
  change (Py.truthy (JArr (first :: others))) with true. cbn [negb].
  change (Py.slice (JArr (first :: others)) 10)
    with (Ok (JArr (firstn 10 (first :: others)))).
  cbn [bind Py.iter].
  destruct (forallb Shape.is_obj (firstn 10 (first :: others))) eqn:Hshape.
  - left. split; [reflexivity|].
    destruct (for_each_shaped
                (fun section =>
                   line <- Py.get section "line" (JStr "Unknown Section") ;;
                   Ok ("- " ++ Py.str line))
                Shape.is_obj (firstn 10 (first :: others))) as [lines ->];
      [|exact Hshape|now eexists].
    intros section Hsection.
    destruct (Hbody section) as [Hok|[Hno _]]; [exact Hok|congruence].
  - right. split; [reflexivity|].
    rewrite (for_each_raises _ AttributeError); [reflexivity| |].
    + intros section _. destruct (Hbody section) as [Hok|[_ Hraise]]; auto.
    + destruct (forallb_false_exists _ _ Hshape) as [section [Hin Hno]].
      exists section. split; [exact Hin|].
      destruct (Hbody section) as [[line Hok]|[_ Hraise]]; [|exact Hraise].
      destruct section; try discriminate Hno; discriminate Hok.
Qed.

(** X9.  [format_search_result] succeeds exactly on a mapping whose title
    and snippet are strings or missing; on anything else it raises
    [AttributeError]. *)
Theorem format_search_result_fails_exactly (v : json) :
  ((exists text, format_search_result v = Ok text) <->
   Shape.obj_with Shape.hit v = true) /\
  (format_search_result v = Raise AttributeError <->
   Shape.obj_with Shape.hit v = false).
Proof.
  destruct (format_search_result_cases v) as [[Hshape [text Hok]]|[Hshape Hraise]];
    rewrite Hshape.
  - repeat split; try discriminate; try congruence. now exists text.
  - repeat split; try discriminate; try congruence.
    intros [text Hok]. congruence.
Qed.

(** X10.  [format_article_summary] succeeds exactly on a mapping whose
    [content_urls] and [content_urls.desktop], when there, are mappings; on
    anything else it raises [AttributeError]. *)
Theorem format_article_summary_fails_exactly (data : json) :
  ((exists text, format_article_summary data = Ok text) <->
   Shape.obj_with Shape.summary_fields data = true) /\
  (format_article_summary data = Raise AttributeError <->
   Shape.obj_with Shape.summary_fields data = false).
Proof.
  destruct (Shape.obj_with Shape.summary_fields data) eqn:Hshape.
  - destruct data as [| | | | | |fields]; try discriminate.
    rewrite (format_article_summary_shaped _ Hshape).
    repeat split; try discriminate. now eexists.
  - assert (Hraise : format_article_summary data = Raise AttributeError).
    { destruct data as [| | | | | |fields]; try reflexivity.
      cbv [Shape.obj_with Shape.summary_fields Shape.optional Shape.is_obj]
        in Hshape.
      unfold format_article_summary, Py.get.
      destruct (Py.dict_get "title" fields), (Py.dict_get "extract" fields);
        cbn [bind];
        (destruct (Py.dict_get "content_urls" fields) as [[| | | | | |urls]|];
         try discriminate; try reflexivity; cbn [bind];
         destruct (Py.dict_get "desktop" urls) as [[| | | | | |desktop]|];
         try discriminate; reflexivity). }
    rewrite Hraise. repeat split; try discriminate.
    intros [text Hok]. discriminate.
Qed.

(** X11.  On a list, [format_article_sections] looks at the first ten
    entries only: it succeeds exactly when these are mappings, raises
    [AttributeError] otherwise, and entries after the tenth, whatever they
    are, change nothing. *)
Theorem format_article_sections_reads_first_ten (items extra : list json) :
  ((exists text, format_article_sections (JArr items) = Ok text) <->
   forallb Shape.is_obj (firstn 10 items) = true) /\
  (format_article_sections (JArr items) = Raise AttributeError <->
   forallb Shape.is_obj (firstn 10 items) = false) /\
  (10 <= List.length items ->
   format_article_sections (JArr (items ++ extra)) =
   format_article_sections (JArr items)).
Proof.
  split; [|split].
  - destruct (format_article_sections_cases items)
      as [[Hshape [text Hok]]|[Hshape Hraise]]; rewrite Hshape.
    + split; [reflexivity|]. intros _. now exists text.
    + split; [|discriminate]. intros [text Hok]. congruence.
  - destruct (format_article_sections_cases items)
      as [[Hshape [text Hok]]|[Hshape Hraise]]; rewrite Hshape.
    + split; [congruence|discriminate].
    + split; [reflexivity|]. intros _. exact Hraise.
  - intros Hlen. unfold format_article_sections.
    destruct items as [|first others]; [cbn in Hlen; lia|].
    change (Py.truthy (JArr ((first :: others) ++ extra))) with true.
    change (Py.truthy (JArr (first :: others))) with true. cbn [negb].
    change (Py.slice (JArr ((first :: others) ++ extra)) 10)
      with (Ok (JArr (firstn 10 ((first :: others) ++ extra)))).
    change (Py.slice (JArr (first :: others)) 10)
      with (Ok (JArr (firstn 10 (first :: others)))).
    rewrite firstn_app.
    replace (10 - List.length (first :: others)) with 0 by lia.
    now rewrite firstn_O, app_nil_r.
Qed.

Lemma format_article_sections_reads_first_ten_witness :
  format_article_sections
    (JArr (map JObj (firstn 10 Sample.fifteen_sections) ++ [JInt 11])) =
  Ok (Text.join Text.nl
        ["- 1"; "- 2"; "- 3"; "- 4"; "- 5"; "- 6"; "- 7"; "- 8"; "- 9"; "- 10"]).
Proof.
  rewrite (proj2 (proj2 (format_article_sections_reads_first_ten
                           (map JObj (firstn 10 Sample.fifteen_sections))
                           [JInt 11]))).
  - reflexivity.
  - cbn. lia.
Defined.

(** ** Search: malformed hits and the article URL *)

(** X12.  One hit that [format_search_result] cannot format makes the whole
    search raise [AttributeError]: the hits that could be formatted are not
    returned. *)
Theorem malformed_hit_fails_search (net : network) (query : string)
    (limit : Z) (hits : list json) :
  dig "query" "search"
      (fetch net WIKIPEDIA_SEARCH_API (Some (search_params query limit))) =
    Some (JArr hits) ->
  forallb (Shape.obj_with Shape.hit) hits = false ->
  run (search_wikipedia query limit) net = Raise AttributeError.
Proof.
  intros Hdig Hbad. unfold search_wikipedia. rewrite run_after_gateway.
  read_pages Hdig.
  destruct hits as [|h hits]; [discriminate|].
  change (Py.truthy (JArr (h :: hits))) with true. cbn [negb Py.iter bind].
  rewrite (for_each_raises _ AttributeError); [reflexivity| |].
  - intros hit _.
    destruct (format_search_result_cases hit) as [[_ Hok]|[_ Hraise]]; auto.
  - destruct (forallb_false_exists _ _ Hbad) as [hit [Hin Hshape]].
    exists hit. split; [exact Hin|].
    destruct (format_search_result_cases hit) as [[Hyes _]|[_ Hraise]];
      [congruence|exact Hraise].
Qed.

Lemma malformed_hit_fails_search_witness :
  run (search_wikipedia "Test" 10) Sample.bad_hit_net = Raise AttributeError.
Proof.
  exact (malformed_hit_fails_search Sample.bad_hit_net "Test" 10
           [Sample.hit "Test" "A procedure"; JObj [("title", JInt 7)]]
           eq_refl eq_refl).
Defined.

Lemma format_search_result_text (fields : list (string * json))
    (otitle osnippet : option string) :
  Py.dict_get "title" fields = option_map JStr otitle ->
  Py.dict_get "snippet" fields = option_map JStr osnippet ->
  format_search_result (JObj fields) =
    Ok ("Title: " ++ with_default "Unknown" otitle ++ Text.nl ++
        "Description: " ++
        Text.replace searchmatch_close ""
          (Text.replace searchmatch_open ""
             (with_default "No description available" osnippet)) ++
        Text.nl ++
        "URL: https://en.wikipedia.org/wiki/" ++
        Text.replace " " "_" (with_default "Unknown" otitle)).
Proof.
  intros Ht Hs. unfold format_search_result, Py.get. rewrite Ht, Hs.
  destruct otitle, osnippet; reflexivity.
Qed.

(** X13.  The article URL of a search result is the fixed prefix followed
    by a path segment that has no space and is as long as the title; a
    title without spaces is the segment itself. *)
Theorem search_result_url_has_no_space (fields : list (string * json))
    (otitle osnippet : option string) :
  Py.dict_get "title" fields = option_map JStr otitle ->
  Py.dict_get "snippet" fields = option_map JStr osnippet ->
  let title := with_default "Unknown" otitle in
  exists description segment,
    format_search_result (JObj fields) =
      Ok ("Title: " ++ title ++ Text.nl ++
          "Description: " ++ description ++ Text.nl ++
          "URL: https://en.wikipedia.org/wiki/" ++ segment) /\
    Text.contains " " segment = false /\
    String.length segment = String.length title /\
    (Text.contains " " title = false -> segment = title).
Proof.
  intros Ht Hs title.
  eexists. exists (Text.replace " " "_" title).
  split; [|split; [|split]].
  - apply (format_search_result_text fields otitle osnippet Ht Hs).
  - rewrite replace_spaces. apply underscored_has_no_space.
  - rewrite replace_spaces. apply underscored_length.
  - intros Hplain. apply replace_absent; [discriminate|exact Hplain].
Qed.

Lemma search_result_url_has_no_space_witness :
  exists description segment,
    format_search_result (Sample.hit "Test cricket" "The longest form") =
      Ok ("Title: Test cricket" ++ Text.nl ++
          "Description: " ++ description ++ Text.nl ++
          "URL: https://en.wikipedia.org/wiki/" ++ segment) /\
    Text.contains " " segment = false /\
    String.length segment = 12.
Proof.
  destruct (search_result_url_has_no_space
              [("ns", JInt 0); ("title", JStr "Test cricket");
               ("snippet", JStr "The longest form")]
              (Some "Test cricket") (Some "The longest form")
              eq_refl eq_refl)
    as [description [segment [Hrun [Hspace [Hlen _]]]]].
  exists description, segment. repeat split; assumption.
Defined.

(** ** Sections as the operations show them *)

Lemma format_article_sections_lines (first : list (string * json))
    (others : list (list (string * json))) :
  format_article_sections (JArr (map JObj (first :: others))) =
    Ok (Text.join Text.nl (map section_line (firstn 10 (first :: others)))).
Proof.
  unfold format_article_sections.
  change (Py.truthy (JArr (map JObj (first :: others)))) with true.
  cbn [negb].
  change (Py.slice (JArr (map JObj (first :: others))) 10)
    with (Ok (JArr (firstn 10 (map JObj (first :: others))))).
  cbn [bind Py.iter]. rewrite firstn_map.
  rewrite (for_each_map _ JObj section_line); [reflexivity|].
  intros fields. unfold section_line, field_or. cbn.
  destruct (Py.dict_get "line" fields); reflexivity.
Qed.

(** X14.  The sections operation shows the header and the first ten
    sections of the response, whatever their number; the article operation
    appends the same ten lines under [Sections:] to the summary text. *)
Theorem operations_show_first_ten_sections (net : network) (title : string)
    (fields : list (string * json)) (first : list (string * json))
    (others : list (list (string * json))) :
  fetch net (sections_url title) None = JObj fields ->
  Py.dict_get "sections" fields = Some (JArr (map JObj (first :: others))) ->
  let lines :=
    Text.join Text.nl (map section_line (firstn 10 (first :: others))) in
  run (get_wikipedia_sections title) net =
    Ok ("Sections for '" ++ title ++ "':" ++ Text.nl ++ lines) /\
  (forall info,
     Py.truthy (fetch net (summary_url title) None) = true ->
     format_article_summary (fetch net (summary_url title) None) = Ok info ->
     run (get_wikipedia_article title) net =
       Ok (info ++ Text.nl ++ Text.nl ++ "Sections:" ++ Text.nl ++ lines)).
Proof.
  intros Hdata Hsections lines. split.
  - unfold get_wikipedia_sections. rewrite run_after_gateway, Hdata.
    unfold or_else, Py.not_in, Py.contains, Py.getitem, Py.dict_has.
    rewrite (dict_get_truthy _ _ _ Hsections), Hsections. cbn [negb bind].
    now rewrite format_article_sections_lines.
  - intros info Htruthy Hinfo.
    rewrite (get_wikipedia_article_run _ _ Htruthy). cbv zeta.
    rewrite Hinfo, Hdata. cbn [bind].
    unfold Py.get, Py.getitem.
    rewrite (dict_get_truthy _ _ _ Hsections), Hsections. cbn [bind].
    change (Py.truthy (JArr (map JObj (first :: others)))) with true.
    cbn iota. now rewrite format_article_sections_lines.
Qed.

Lemma operations_show_first_ten_sections_witness :
  run (get_wikipedia_sections "Cat") Sample.wiki_net =
    Ok ("Sections for 'Cat':" ++ Text.nl ++
        "- Etymology" ++ Text.nl ++ "- Taxonomy").
Proof.
  exact (proj1 (operations_show_first_ten_sections Sample.wiki_net "Cat"
                  Sample.cat_sections (Sample.heading "Etymology")
                  [Sample.heading "Taxonomy"] eq_refl eq_refl)).
Defined.
